(** * The CDL dataset accessor of torchgeo ([torchgeo/datasets/cdl.py])

    A shallow embedding of class [CDL]: its construction ([__init__],
    [_check_integrity], [_download]) and its query operation
    ([__getitem__]), together with the theorems that settle the
    specification's claims about them.

    Modelling conventions.
    - Python [str] is [string], read as the sequence of its characters,
      all of them below U+0100; paths are POSIX paths, compared as they
      are written.
    - Coordinates and timestamps are Python floats in the source.  They are
      modelled by [Z]: raster grids are addressed by whole pixels and the
      timestamps built by the constructor are whole seconds, all of them
      exactly representable.
    - An exception is a value of [Exn]; a computation runs in the state and
      exception monad [M]: state changes made before a [raise] persist, as
      mutations do in Python.
    - The collaborators the class calls (the file system, glob, torchvision's
      [check_integrity] and [download_and_extract_archive], rasterio, the
      R-tree index, [datetime]) are modelled after their documented
      behaviour, as far as the class depends on it.
    - What the class cannot decide is part of the world it runs in: the
      files and the order in which a directory lists them, the local
      clock's offset from UTC, what a fetch does, and the order in which
      the R-tree returns the entries it holds. *)

From Stdlib Require Import ZArith List String Ascii Bool Lia DecimalString.
From Stdlib Require Import Permutation.
Import ListNotations.

Local Open Scope string_scope.
Local Open Scope Z_scope.

(* ===================================================================== *)
(** ** Exceptions and the state-and-exception monad *)
(* ===================================================================== *)

Inductive Exn : Type :=
| RuntimeError (msg : string)
| ValueError
| OverflowError
| StopIteration
| RTreeError
| RasterioIOError
| FetchError (msg : string).

Inductive result (A : Type) : Type :=
| Ok (a : A)
| Raise (e : Exn).

Arguments Ok {A} a.
Arguments Raise {A} e.

Definition is_ok {A} (r : result A) : bool :=
  match r with Ok _ => true | Raise _ => false end.

Definition M (S A : Type) : Type := S -> result A * S.

Definition ret {S A} (a : A) : M S A := fun s => (Ok a, s).

Definition raise {S A} (e : Exn) : M S A := fun s => (Raise e, s).

Definition bind {S A B} (m : M S A) (k : A -> M S B) : M S B :=
  fun s =>
    match m s with
    | (Ok a, s') => k a s'
    | (Raise e, s') => (Raise e, s')
    end.

Definition get {S} : M S S := fun s => (Ok s, s).

Definition put {S} (s : S) : M S unit := fun _ => (Ok tt, s).

(** Lift a pure fallible computation. *)
Definition lift {S A} (r : result A) : M S A := fun s => (r, s).

Declare Scope monad_scope.
Delimit Scope monad_scope with monad.
Notation "x <- m ;; k" := (bind m (fun x => k))
  (at level 61, m at next level, right associativity) : monad_scope.
Notation "m ;;; k" := (bind m (fun _ => k))
  (at level 61, right associativity) : monad_scope.
Local Open Scope monad_scope.

(** [for x in xs: body x] *)
Fixpoint for_each {S A} (xs : list A) (body : A -> M S unit) : M S unit :=
  match xs with
  | [] => ret tt
  | x :: xs' => body x ;;; for_each xs' body
  end.

(* ===================================================================== *)
(** ** Python built-ins and [os.path] *)
(* ===================================================================== *)

Module Py.

Definition startswith (p s : string) : bool := String.prefix p s.

Fixpoint contains_char (c : ascii) (s : string) : bool :=
  match s with
  | EmptyString => false
  | String d s' => Ascii.eqb c d || contains_char c s'
  end.

(** [s.endswith(suffix)] *)
Definition endswith (suffix s : string) : bool :=
  let n := String.length s in
  let k := String.length suffix in
  Nat.leb k n && String.eqb (String.substring (n - k) k s) suffix.

(** [s.split(sep)[0]] for a one-character separator: the part of [s]
    before the first [sep], all of [s] when there is none. *)
Fixpoint split_first (sep : ascii) (s : string) : string :=
  match s with
  | EmptyString => EmptyString
  | String c s' =>
      if Ascii.eqb c sep then EmptyString else String c (split_first sep s')
  end.

(** [s.split(sep)] for a one-character separator. *)
Fixpoint split (sep : ascii) (s : string) : list string :=
  match s with
  | EmptyString => [EmptyString]
  | String c s' =>
      if Ascii.eqb c sep then EmptyString :: split sep s'
      else
        match split sep s' with
        | [] => [String c EmptyString]
        | part :: parts => String c part :: parts
        end
  end.

(** [posixpath.basename]: what follows the last slash. *)
Fixpoint basename (p : string) : string :=
  match p with
  | EmptyString => EmptyString
  | String c p' =>
      if contains_char "/" p then basename p' else p
  end.

(** Drop the trailing characters that satisfy [drop]. *)
Fixpoint rstrip_by (drop : ascii -> bool) (s : string) : string :=
  match s with
  | EmptyString => EmptyString
  | String c s' =>
      match rstrip_by drop s' with
      | EmptyString => if drop c then EmptyString else String c EmptyString
      | t => String c t
      end
  end.

(** [posixpath.dirname]: everything up to the last slash, with the
    trailing slashes removed unless the head is made of slashes only. *)
Definition dirname (p : string) : string :=
  let head := String.substring 0 (String.length p - String.length (basename p)) p in
  match rstrip_by (Ascii.eqb "/") head with
  | EmptyString => head
  | t => t
  end.

(** [posixpath.join] of two components. *)
Definition join2 (a b : string) : string :=
  if startswith "/" b then b
  else if String.eqb a "" || endswith "/" a then a ++ b
  else a ++ "/" ++ b.

(** [os.path.join(a, b, c)] *)
Definition join3 (a b c : string) : string := join2 (join2 a b) c.

(** [str(n)] for an [int]. *)
Definition str (n : Z) : string := NilZero.string_of_int (Z.to_int n).

Definition is_digit (c : ascii) : bool :=
  let n := nat_of_ascii c in Nat.leb 48 n && Nat.leb n 57.

Definition digit_val (c : ascii) : Z := Z.of_nat (nat_of_ascii c) - 48.

(** The characters [int] takes for white space around the digits: the
    ASCII ones that C's [isspace] knows and, above U+007F, the two white
    space characters NEL and NBSP. *)
Definition is_space (c : ascii) : bool :=
  let n := nat_of_ascii c in
  (Nat.leb 9 n && Nat.leb n 13) || Nat.eqb n 32
  || Nat.eqb n 133 || Nat.eqb n 160.

Fixpoint lstrip (s : string) : string :=
  match s with
  | EmptyString => EmptyString
  | String c s' => if is_space c then lstrip s' else s
  end.

Definition rstrip (s : string) : string := rstrip_by is_space s.

(** The digits of a decimal literal: one or more digits, where single
    underscores may stand between two digits. *)
Fixpoint digits (acc : Z) (after_digit : bool) (s : string) : option Z :=
  match s with
  | EmptyString => if after_digit then Some acc else None
  | String c s' =>
      if is_digit c then digits (10 * acc + digit_val c) true s'
      else if Ascii.eqb c "_" && after_digit then
        match s' with
        | String d _ => if is_digit d then digits acc false s' else None
        | EmptyString => None
        end
      else None
  end.

(** [int(s)], base 10: surrounding white space, an optional sign, then the
    digits.  Anything else raises [ValueError]. *)
Definition int (s : string) : result Z :=
  let t := rstrip (lstrip s) in
  let parsed :=
    match t with
    | String c t' =>
        if Ascii.eqb c "-" then option_map Z.opp (digits 0 false t')
        else if Ascii.eqb c "+" then digits 0 false t'
        else digits 0 false t
    | EmptyString => None
    end in
  match parsed with
  | Some n => Ok n
  | None => Raise ValueError
  end.

End Py.


(* ===================================================================== *)
(** ** [fnmatch] and [datetime] *)
(* ===================================================================== *)

Module Fnmatch.

(** A pattern, as [fnmatch.translate] reads it. *)
Inductive Token : Type :=
| Star
| AnyChar
| Lit (c : ascii)
| Class (negated : bool) (ranges : list (ascii * ascii)).

(** The part of [s] before the first [c] and the part after it. *)
Fixpoint cut_at (c : ascii) (s : string) : option (string * string) :=
  match s with
  | EmptyString => None
  | String d s' =>
      if Ascii.eqb d c then Some (EmptyString, s')
      else
        match cut_at c s' with
        | Some (before, after) => Some (String d before, after)
        | None => None
        end
  end.

(** After an opening bracket: whether the class is negated, its body and
    what follows the closing bracket.  A closing bracket that comes first
    in the body belongs to it.  Without a closing bracket there is no
    class. *)
Definition cut_class (s : string) : option (bool * string * string) :=
  let '(negated, s1) :=
    match s with
    | String c s' => if Ascii.eqb c "!" then (true, s') else (false, s)
    | EmptyString => (false, s)
    end in
  match s1 with
  | String c s2 =>
      if Ascii.eqb c "]" then
        match cut_at "]" s2 with
        | Some (body, rest) => Some (negated, String c body, rest)
        | None => None
        end
      else
        match cut_at "]" s1 with
        | Some (body, rest) => Some (negated, body, rest)
        | None => None
        end
  | EmptyString => None
  end.

(** The ranges of a class body: [a-b] is a range when a character follows
    the hyphen, any other character stands for itself. *)
Fixpoint class_ranges (fuel : nat) (body : string) : list (ascii * ascii) :=
  match fuel with
  | O => []
  | S fuel' =>
      match body with
      | EmptyString => []
      | String lo (String h (String hi rest)) =>
          if Ascii.eqb h "-" then (lo, hi) :: class_ranges fuel' rest
          else (lo, lo) :: class_ranges fuel' (String h (String hi rest))
      | String c rest => (c, c) :: class_ranges fuel' rest
      end
  end.

Fixpoint translate_fuel (fuel : nat) (pat : string) : list Token :=
  match fuel with
  | O => []
  | S fuel' =>
      match pat with
      | EmptyString => []
      | String c rest =>
          if Ascii.eqb c "*" then Star :: translate_fuel fuel' rest
          else if Ascii.eqb c "?" then AnyChar :: translate_fuel fuel' rest
          else if Ascii.eqb c "[" then
            match cut_class rest with
            | Some (negated, body, rest') =>
                Class negated (class_ranges (String.length body) body)
                :: translate_fuel fuel' rest'
            | None => Lit c :: translate_fuel fuel' rest
            end
          else Lit c :: translate_fuel fuel' rest
      end
  end.

Definition translate (pat : string) : list Token :=
  translate_fuel (String.length pat) pat.

(** A range that runs backwards holds no character. *)
Definition in_ranges (c : ascii) (ranges : list (ascii * ascii)) : bool :=
  existsb (fun '(lo, hi) =>
             Nat.leb (nat_of_ascii lo) (nat_of_ascii c)
             && Nat.leb (nat_of_ascii c) (nat_of_ascii hi))
          ranges.

(** The whole of [name] matches the pattern. *)
Fixpoint matches (toks : list Token) (name : string) : bool :=
  match toks with
  | [] =>
      match name with EmptyString => true | _ => false end
  | Star :: toks' =>
      (fix star (s : string) : bool :=
         matches toks' s ||
         match s with
         | EmptyString => false
         | String _ s' => star s'
         end) name
  | AnyChar :: toks' =>
      match name with
      | EmptyString => false
      | String _ name' => matches toks' name'
      end
  | Lit c :: toks' =>
      match name with
      | EmptyString => false
      | String d name' => Ascii.eqb c d && matches toks' name'
      end
  | Class negated ranges :: toks' =>
      match name with
      | EmptyString => false
      | String d name' =>
          xorb negated (in_ranges d ranges) && matches toks' name'
      end
  end.

(** [fnmatch.fnmatchcase(name, pat)] *)
Definition fnmatch (pat name : string) : bool := matches (translate pat) name.

End Fnmatch.

Module Datetime.

Definition MINYEAR : Z := 1.
Definition MAXYEAR : Z := 9999.

Record datetime : Type := mk_datetime {
  year : Z; month : Z; day : Z; hour : Z; minute : Z; second : Z
}.

Definition is_leap (y : Z) : bool :=
  (y mod 4 =? 0) && (negb (y mod 100 =? 0) || (y mod 400 =? 0)).

Definition days_before_year (y : Z) : Z :=
  let p := y - 1 in p * 365 + p / 4 - p / 100 + p / 400.

Definition DAYS_IN_MONTH : list Z :=
  [-1; 31; 28; 31; 30; 31; 30; 31; 31; 30; 31; 30; 31].

Definition DAYS_BEFORE_MONTH : list Z :=
  [-1; 0; 31; 59; 90; 120; 151; 181; 212; 243; 273; 304; 334].

Definition days_in_month (y m : Z) : Z :=
  if (m =? 2) && is_leap y then 29
  else nth (Z.to_nat m) DAYS_IN_MONTH 0.

Definition days_before_month (y m : Z) : Z :=
  nth (Z.to_nat m) DAYS_BEFORE_MONTH 0
  + (if (2 <? m) && is_leap y then 1 else 0).

(** Proleptic Gregorian ordinal: 1 January of year 1 is day 1. *)
Definition ymd2ord (y m d : Z) : Z :=
  days_before_year y + days_before_month y m + d.

(** The values of a C [int], which the constructor takes its fields as. *)
Definition fits_int (v : Z) : bool := (- 2 ^ 31 <=? v) && (v <? 2 ^ 31).

(** [datetime(y, m, d, hh, mm, ss)], for a year read from a name and the
    other fields small: a year that does not fit a C [int] raises
    [OverflowError]; then the constructor checks every field and raises
    [ValueError] for one out of range. *)
Definition make (y m d hh mm ss : Z) : result datetime :=
  if negb (fits_int y) then Raise OverflowError
  else if (MINYEAR <=? y) && (y <=? MAXYEAR)
     && (1 <=? m) && (m <=? 12)
     && (1 <=? d) && (d <=? days_in_month y m)
     && (0 <=? hh) && (hh <=? 23)
     && (0 <=? mm) && (mm <=? 59)
     && (0 <=? ss) && (ss <=? 59)
  then Ok (mk_datetime y m d hh mm ss)
  else Raise ValueError.

(** Seconds from 1970-01-01 00:00:00 to [t], both read on the same clock. *)
Definition wall_seconds (t : datetime) : Z :=
  (ymd2ord (year t) (month t) (day t) - 719163) * 86400
  + hour t * 3600 + minute t * 60 + second t.

(** The value of [t.timestamp()] for a naive [t]: [t] is read on the local
    clock, whose offset from UTC at a time is given by [utcoffset]. *)
Definition timestamp (utcoffset : Z -> Z) (t : datetime) : Z :=
  wall_seconds t - utcoffset (wall_seconds t).

(** The first and the last second a [datetime] can hold. *)
Definition MIN_SECONDS : Z := wall_seconds (mk_datetime MINYEAR 1 1 0 0 0).
Definition MAX_SECONDS : Z :=
  wall_seconds (mk_datetime MAXYEAR 12 31 23 59 59).

(** The local reading of the clock at [u] is a [datetime]: its year is
    from 1 to 9999. *)
Definition local_in_range (utcoffset : Z -> Z) (u : Z) : bool :=
  (MIN_SECONDS <=? u + utcoffset u) && (u + utcoffset u <=? MAX_SECONDS).

(** [t.timestamp()] for a naive [t].  On the way to its value the method
    reads the local clock at three times: at [t] taken for a UTC time, at
    the value itself, and a day before the value; a reading outside the
    years 1 to 9999 raises [ValueError].  The value is that of a clock
    with one offset over that day. *)
Definition timestamp_checked (utcoffset : Z -> Z) (t : datetime) : result Z :=
  let s := wall_seconds t in
  let u := timestamp utcoffset t in
  if local_in_range utcoffset s
     && local_in_range utcoffset u
     && local_in_range utcoffset (u - 86400)
  then Ok u
  else Raise ValueError.

End Datetime.

(* ===================================================================== *)
(** ** Bounding boxes and the R-tree index *)
(* ===================================================================== *)

(** Modelled from the spec: [BoundingBox] is declared in [torchgeo/datasets/utils.py],
    which is not among the sources; it is the spec's BoundingVolume, the
    6-tuple [(minx, maxx, miny, maxy, mint, maxt)]. *)
Record BoundingBox : Type := mkBoundingBox {
  minx : Z; maxx : Z; miny : Z; maxy : Z; mint : Z; maxt : Z
}.

(** Modelled from the spec: the invariant of a BoundingVolume,
    [minX <= maxX], [minY <= maxY], [minTime <= maxTime]. *)
Definition wf_bbox (b : BoundingBox) : bool :=
  (minx b <=? maxx b) && (miny b <=? maxy b) && (mint b <=? maxt b).

Module RTree.

(** Coordinates of a 3-dimensional index with [interleaved=False]:
    [(xmin, xmax, ymin, ymax, zmin, zmax)]. *)
Definition Coords : Type := (Z * Z * Z * Z * Z * Z)%type.

Definition of_bbox (b : BoundingBox) : Coords :=
  (minx b, maxx b, miny b, maxy b, mint b, maxt b).

Record Item : Type := mkItem { id : Z; bbox : Coords; object : string }.

(** The entries, in the order the index returns them. *)
Definition Index : Type := list Item.

Definition Item_eq_dec (a b : Item) : {a = b} + {a <> b}.
Proof.
  decide equality.
  - apply string_dec.
  - repeat (decide equality; try apply Z.eq_dec).
  - apply Z.eq_dec.
Defined.

(** The index refuses coordinates whose minimum corner comes after the
    maximum corner.  The corners [(xmin, ymin, zmin)] and
    [(xmax, ymax, zmax)] are compared as Python compares lists, by their
    first differing axis: an inverted later axis passes when an earlier
    one is strictly ordered. *)
Definition valid (c : Coords) : bool :=
  let '(x0, x1, y0, y1, t0, t1) := c in
  (x0 <? x1)
  || ((x0 =? x1) && ((y0 <? y1) || ((y0 =? y1) && (t0 <=? t1)))).

(** Two lists hold the same entries, each as many times. *)
Definition same_entries (l1 l2 : list Item) : bool :=
  forallb (fun x => Nat.eqb (count_occ Item_eq_dec l1 x)
                            (count_occ Item_eq_dec l2 x))
          (l1 ++ l2)%list.

(** The order in which the tree returns its entries is the tree's own:
    [layout] gives it, and holds for any rearrangement of the entries. *)
Definition arrange (layout : Index -> Index) (entries : Index) : Index :=
  if same_entries (layout entries) entries then layout entries else entries.

(** Closed boxes: two boxes that only touch do intersect. *)
Definition intersects (a b : Coords) : bool :=
  let '(ax0, ax1, ay0, ay1, at0, at1) := a in
  let '(bx0, bx1, by0, by1, bt0, bt1) := b in
  (ax0 <=? bx1) && (bx0 <=? ax1)
  && (ay0 <=? by1) && (by0 <=? ay1)
  && (at0 <=? bt1) && (bt0 <=? at1).

(** [index.insert(id, coordinates, obj)]: the entry joins the others and
    the tree settles their order. *)
Definition insert (layout : Index -> Index) (i : Z) (c : Coords)
    (obj : string) (idx : Index) : result Index :=
  if valid c then Ok (arrange layout (idx ++ [mkItem i c obj])%list)
  else Raise RTreeError.

(** [index.intersection(coordinates, objects=True)] *)
Definition intersection (c : Coords) (idx : Index) : result (list Item) :=
  if valid c then Ok (filter (fun it => intersects (bbox it) c) idx)
  else Raise RTreeError.

End RTree.

(** [next(it)] on an iterator over [xs]. *)
Definition next {A} (xs : list A) : result A :=
  match xs with
  | [] => Raise StopIteration
  | x :: _ => Ok x
  end.

(* ===================================================================== *)
(** ** Arrays, rasters and the raster source *)
(* ===================================================================== *)

Inductive DType : Type := uint8 | int16 | uint16 | int32 | uint32 | int64.

(** A two-dimensional [numpy] array: [shape] is [(rows, columns)]. *)
Record ndarray : Type := mk_ndarray {
  dtype : DType;
  shape : Z * Z;
  data : list (list Z)
}.

(** Two's-complement reduction to 32 bits. *)
Definition wrap_int32 (v : Z) : Z := (v + 2 ^ 31) mod 2 ^ 32 - 2 ^ 31.

(** [a.astype(np.int32)] for an array of integers. *)
Definition astype_int32 (a : ndarray) : ndarray :=
  {| dtype := int32; shape := shape a; data := map (map wrap_int32) (data a) |}.

(** [torch.tensor(a)]: same element type, shape and elements. *)
Inductive Tensor : Type := tensor (a : ndarray).

Definition tensor_dtype (t : Tensor) : DType := let 'tensor a := t in dtype a.
Definition tensor_shape (t : Tensor) : Z * Z := let 'tensor a := t in shape a.
Definition tensor_data (t : Tensor) : list (list Z) := let 'tensor a := t in data a.

(** A sample is a Python [dict] from field names to tensors. *)
Definition Sample : Type := list (string * Tensor).

Fixpoint sample_get (k : string) (s : Sample) : option Tensor :=
  match s with
  | [] => None
  | (k', v) :: s' => if String.eqb k k' then Some v else sample_get k s'
  end.

Module Rasterio.

(** An open dataset: its bounds [(left, bottom, right, top)], its grid and
    the values of band 1 by row and column. *)
Record Raster : Type := mkRaster {
  bounds : Z * Z * Z * Z;
  height : Z;
  width : Z;
  band_dtype : DType;
  band1 : Z -> Z -> Z
}.

Record Window : Type := mkWindow {
  col_off : Z; row_off : Z; win_width : Z; win_height : Z
}.

(** [Window(col_off, row_off, width, height)]: a negative width or height
    is refused with [ValueError]. *)
Definition Window_new (c r w h : Z) : result Window :=
  if (w <? 0) || (h <? 0) then Raise ValueError
  else Ok (mkWindow c r w h).

(** [lo, lo+1, ..., lo+n-1] *)
Definition zrange (lo n : Z) : list Z :=
  map (fun k => lo + Z.of_nat k) (seq 0 (Z.to_nat n)).

(** [f.read(1, window=w)]: band 1 on the part of the window that lies on
    the grid (the read is not boundless). *)
Definition read1 (f : Raster) (w : Window) : ndarray :=
  let r0 := Z.max 0 (row_off w) in
  let r1 := Z.min (height f) (row_off w + win_height w) in
  let c0 := Z.max 0 (col_off w) in
  let c1 := Z.min (width f) (col_off w + win_width w) in
  let nr := Z.max 0 (r1 - r0) in
  let nc := Z.max 0 (c1 - c0) in
  {| dtype := band_dtype f;
     shape := (nr, nc);
     data := map (fun i => map (fun j => band1 f i j) (zrange c0 nc))
                 (zrange r0 nr) |}.

End Rasterio.

(* ===================================================================== *)
(** ** The world outside the class: files, clock, network *)
(* ===================================================================== *)

(** A regular file: the MD5 digest of its content and, when the content is
    a raster that rasterio can open, that raster. *)
Record File : Type := mkFile {
  md5 : string;
  raster : option Rasterio.Raster
}.

(** The regular files by path, in directory-scan order. *)
Definition FS : Type := list (string * File).

Fixpoint fs_lookup (p : string) (files : FS) : option File :=
  match files with
  | [] => None
  | (q, f) :: files' => if String.eqb p q then Some f else fs_lookup p files'
  end.

(** One invocation of the archive fetcher. *)
Record FetchCall : Type := mkFetchCall {
  fc_url : string;
  fc_dest : string;
  fc_md5 : option string
}.

Record World : Type := mkWorld {
  fs : FS;
  (** the local clock's offset from UTC, by time *)
  utcoffset : Z -> Z;
  (** what [download_and_extract_archive url dest md5] does to the files *)
  fetcher : string -> string -> option string -> FS -> result unit * FS;
  (** the fetcher's invocations so far, oldest first *)
  fetch_log : list FetchCall;
  (** the order in which the R-tree returns the entries it holds *)
  rtree_layout : RTree.Index -> RTree.Index;
  (** the lines the class has printed so far, oldest first *)
  stdout : list string
}.

(** [print(line)] *)
Definition print (line : string) (w : World) : result unit * World :=
  (Ok tt,
   {| fs := fs w;
      utcoffset := utcoffset w;
      fetcher := fetcher w;
      fetch_log := fetch_log w;
      rtree_layout := rtree_layout w;
      stdout := (stdout w ++ [line])%list |}).

Module Torchvision.

(** [check_integrity(fpath, md5)]: the file exists and, when a digest is
    given, has it. *)
Definition check_integrity (files : FS) (fpath : string) (md5_ : option string)
  : bool :=
  match fs_lookup fpath files with
  | None => false
  | Some f =>
      match md5_ with
      | None => true
      | Some h => String.eqb (md5 f) h
      end
  end.

(** [download_and_extract_archive(url, download_root, md5=md5)] *)
Definition download_and_extract_archive (url dest : string)
    (md5_ : option string) (w : World) : result unit * World :=
  let '(r, files) := fetcher w url dest md5_ (fs w) in
  (r, {| fs := files;
         utcoffset := utcoffset w;
         fetcher := fetcher w;
         fetch_log := (fetch_log w ++ [mkFetchCall url dest md5_])%list;
         rtree_layout := rtree_layout w;
         stdout := stdout w |}).

End Torchvision.

Module Glob.

(** [glob.has_magic] *)
Definition has_magic (s : string) : bool :=
  Py.contains_char "*" s || Py.contains_char "?" s || Py.contains_char "[" s.

Definition ishidden (name : string) : bool := Py.startswith "." name.

(** [a/b/c] from its components. *)
Fixpoint unsplit (parts : list string) : string :=
  match parts with
  | [] => EmptyString
  | [part] => part
  | part :: parts' => part ++ "/" ++ unsplit parts'
  end.

(** The paths that lead to [parts]: those of its directories, then its
    own. *)
Fixpoint leading (before parts : list string) : list string :=
  match parts with
  | [] => []
  | part :: parts' =>
      unsplit (before ++ [part]) :: leading (before ++ [part]) parts'
  end.

(** What there is to find: the files and the directories they are in. *)
Definition entries (files : FS) : list string :=
  nodup string_dec
    (flat_map (fun p => leading [] (Py.split "/" p)) (map fst files)).

(** One component of a path against one component of the pattern: a
    component without metacharacters names itself; one with them matches
    the names of a directory listing, hidden names only when the pattern
    starts with a dot too. *)
Definition component_matches (pattern name : string) : bool :=
  if has_magic pattern then
    negb (String.eqb name "")
    && (ishidden pattern || negb (ishidden name))
    && Fnmatch.fnmatch pattern name
  else String.eqb pattern name.

Fixpoint components_match (patterns names : list string) : bool :=
  match patterns, names with
  | [], [] => true
  | pattern :: patterns', name :: names' =>
      component_matches pattern name && components_match patterns' names'
  | _, _ => false
  end.

(** [glob.iglob(pathname)], not recursive: the files and directories whose
    paths match the pattern, component by component. *)
Definition iglob (pathname : string) (files : FS) : list string :=
  filter (fun p => components_match (Py.split "/" pathname) (Py.split "/" p))
         (entries files).

End Glob.

(** [rasterio.open(filename)] *)
Definition rasterio_open (filename : string) (w : World)
  : result Rasterio.Raster :=
  match fs_lookup filename (fs w) with
  | Some {| raster := Some r |} => Ok r
  | _ => Raise RasterioIOError
  end.

(* ===================================================================== *)
(** ** Class [CDL] *)
(* ===================================================================== *)

Module CDL.

Definition base_folder : string := "cdl".

(** [url.format(year)] *)
Definition url (year : Z) : string :=
  "https://www.nass.usda.gov/Research_and_Science/Cropland/Release/datasets/"
  ++ Py.str year ++ "_30m_cdls.zip".

Definition md5s : list (Z * string) :=
  [ (2020, "97b3b5fd62177c9ed857010bca146f36");
    (2019, "49d8052168c15c18f8b81ee21397b0bb");
    (2018, "c7a3061585131ef049bec8d06c6d521e");
    (2017, "dc8c1d7b255c9258d332dd8b23546c93");
    (2016, "bb4df1b2ee6cedcc12a7e5a4527fcf1b");
    (2015, "d17b4bb6ee7940af2c45d6854dafec09");
    (2014, "6e0fcc800bd9f090f543104db93bead8");
    (2013, "38df780d8b504659d837b4c53a51b3f7");
    (2012, "2f3b46e6e4d91c3b7e2a049ba1531abc");
    (2011, "dac7fe435c3c5a65f05846c715315460");
    (2010, "18c9a00f5981d5d07ace69e3e33ea105");
    (2009, "81a20629a4713de6efba2698ccb2aa3d");
    (2008, "e6aa3967e379b98fd30c26abe9696053") ].

(** The attributes of an instance. *)
Record Obj : Type := mkObj {
  root : string;
  transforms : option (Sample -> Sample);
  checksum : bool;
  index : RTree.Index
}.

(** A method runs on an instance in a world. *)
Record State : Type := mkState { self : Obj; world : World }.

Definition set_root (v : string) : M State unit :=
  fun s => (Ok tt, mkState (mkObj v (transforms (self s)) (checksum (self s))
                                  (index (self s))) (world s)).

Definition set_transforms (v : option (Sample -> Sample)) : M State unit :=
  fun s => (Ok tt, mkState (mkObj (root (self s)) v (checksum (self s))
                                  (index (self s))) (world s)).

Definition set_checksum (v : bool) : M State unit :=
  fun s => (Ok tt, mkState (mkObj (root (self s)) (transforms (self s)) v
                                  (index (self s))) (world s)).

Definition set_index (v : RTree.Index) : M State unit :=
  fun s => (Ok tt, mkState (mkObj (root (self s)) (transforms (self s))
                                  (checksum (self s)) v) (world s)).

(** Run a collaborator that acts on the world only. *)
Definition in_world {A} (m : M World A) : M State A :=
  fun s => let '(r, w) := m (world s) in (r, mkState (self s) w).

(** ["{}_30m_cdls.zip".format(year)] under [root/base_folder]. *)
Definition archive_path (root_ : string) (year : Z) : string :=
  Py.join3 root_ base_folder (Py.str year ++ "_30m_cdls.zip").

(** The loop of [_check_integrity] over the remaining table entries. *)
Fixpoint check_loop (o : Obj) (files : FS) (table : list (Z * string)) : bool :=
  match table with
  | [] => true
  | (year, md5_) :: table' =>
      let filepath := archive_path (root o) year in
      if negb (Torchvision.check_integrity files filepath
                 (if checksum o then Some md5_ else None))
      then false
      else check_loop o files table'
  end.

Definition _check_integrity : M State bool :=
  s <- get ;;
  ret (check_loop (self s) (fs (world s)) md5s).

(** The body of the loop of [_download] over the table. *)
Definition download_entry (entry : Z * string) : M State unit :=
  let '(year, md5_) := entry in
  s <- get ;;
  in_world (Torchvision.download_and_extract_archive
              (url year)
              (Py.join2 (root (self s)) base_folder)
              (if checksum (self s) then Some md5_ else None)).

Definition _download : M State unit :=
  ok <- _check_integrity ;;
  if ok then in_world (print "Files already downloaded and verified")
  else for_each md5s download_entry.

Definition integrity_message : string :=
  "Dataset not found or corrupted. You can use download=True to download it".

(** The body of the loop over the discovered files. *)
Definition index_file (filename : string) : M State unit :=
  year <- lift (Py.int (Py.split_first "_" (Py.basename filename))) ;;
  s <- get ;;
  d0 <- lift (Datetime.make year 1 1 0 0 0) ;;
  mint <- lift (Datetime.timestamp_checked (utcoffset (world s)) d0) ;;
  d1 <- lift (Datetime.make year 12 31 23 59 59) ;;
  maxt <- lift (Datetime.timestamp_checked (utcoffset (world s)) d1) ;;
  f <- lift (rasterio_open filename (world s)) ;;
  let '(minx, miny, maxx, maxy) := Rasterio.bounds f in
  let coords := (minx, maxx, miny, maxy, mint, maxt) in
  idx <- lift (RTree.insert (rtree_layout (world s)) 0 coords filename
                 (index (self s))) ;;
  set_index idx.

Definition __init__ (root_ : string)
    (transforms_ : option (Sample -> Sample))
    (download checksum_ : bool) : M State unit :=
  set_root root_ ;;;
  set_transforms transforms_ ;;;
  set_checksum checksum_ ;;;
  (if download then _download else ret tt) ;;;
  ok <- _check_integrity ;;
  (if negb ok then raise (RuntimeError integrity_message) else ret tt) ;;;
  let fileglob := Py.join3 root_ base_folder "**_30m_cdls.img" in
  s <- get ;;
  for_each (Glob.iglob fileglob (fs (world s))) index_file.

Definition __getitem__ (query : BoundingBox) : M State Sample :=
  window <- lift (Rasterio.Window_new
                    (minx query) (miny query)
                    (maxx query - minx query) (maxy query - miny query)) ;;
  s <- get ;;
  hits <- lift (RTree.intersection (RTree.of_bbox query) (index (self s))) ;;
  item <- lift (next hits) ;;
  let filename := RTree.object item in
  f <- lift (rasterio_open filename (world s)) ;;
  let masks := Rasterio.read1 f window in
  let masks := astype_int32 masks in
  ret [("masks", tensor masks)].

(** Modelled from the spec: the [index] attribute comes from the base class
    [GeoDataset] ([torchgeo/datasets/geo.py], not among the sources); the
    spec has each instance own its index, built at construction by
    scanning the discovered files, so a new instance starts from the
    empty index. *)
Definition fresh : Obj :=
  {| root := ""; transforms := None; checksum := false; index := [] |}.

(** [CDL(root, transforms, download, checksum)]: the caller receives the
    instance only when [__init__] returns. *)
Definition new (root_ : string) (transforms_ : option (Sample -> Sample))
    (download checksum_ : bool) (w : World) : result Obj * World :=
  match __init__ root_ transforms_ download checksum_ (mkState fresh w) with
  | (Ok _, s) => (Ok (self s), world s)
  | (Raise e, s) => (Raise e, world s)
  end.

(** [ds[query]] *)
Definition query (ds : Obj) (q : BoundingBox) (w : World)
  : result Sample * State :=
  __getitem__ q (mkState ds w).

End CDL.

(* ===================================================================== *)
(** ** Vocabulary of the properties *)
(* ===================================================================== *)

Module Props.

Import CDL.

(** The name pattern of the raster files under [root_]. *)
Definition fileglob (root_ : string) : string :=
  Py.join3 root_ base_folder "**_30m_cdls.img".

(** The leading token of a discovered file's name. *)
Definition leading_token (filename : string) : string :=
  Py.split_first "_" (Py.basename filename).

(** The decimal digit [d] as a character. *)
Definition digit_char (d : Z) : ascii := ascii_of_nat (48 + Z.to_nat d).

(** The four-digit spelling of a year, leading zeros included. *)
Definition year_token (y : Z) : string :=
  String (digit_char (y / 1000))
    (String (digit_char (y / 100 mod 10))
       (String (digit_char (y / 10 mod 10))
          (String (digit_char (y mod 10)) EmptyString))).

(** The entry that wins a query: the first one the index returns. *)
Definition first_hit (ds : Obj) (q : BoundingBox) : result RTree.Item :=
  match RTree.intersection (RTree.of_bbox q) (index ds) with
  | Ok hits => next hits
  | Raise e => Raise e
  end.

(** The window [__getitem__] asks the raster source for. *)
Definition query_window (q : BoundingBox) : Rasterio.Window :=
  Rasterio.mkWindow (minx q) (miny q) (maxx q - minx q) (maxy q - miny q).

(** The outcome of [__getitem__], as a function of what it reads. *)
Definition query_outcome (ds : Obj) (w : World) (q : BoundingBox)
  : result Sample :=
  match Rasterio.Window_new (minx q) (miny q)
          (maxx q - minx q) (maxy q - miny q) with
  | Raise e => Raise e
  | Ok window =>
      match first_hit ds q with
      | Raise e => Raise e
      | Ok item =>
          match rasterio_open (RTree.object item) w with
          | Raise e => Raise e
          | Ok f =>
              Ok [("masks", tensor (astype_int32 (Rasterio.read1 f window)))]
          end
      end
  end.

(** The fetcher invocation [_download] makes for one table entry. *)
Definition fetch_call (o : Obj) (entry : Z * string) : FetchCall :=
  let '(year, md5_) := entry in
  mkFetchCall (url year) (Py.join2 (root o) base_folder)
              (if checksum o then Some md5_ else None).

(** What the integrity check can see of the file at a path: whether it is
    there and, under checksum verification only, its digest. *)
Definition archive_view (verify : bool) (files : FS) (path : string)
  : option string :=
  option_map (fun f => if verify then md5 f else "") (fs_lookup path files).

Definition archive_missing (files : FS) (root_ : string) (year : Z) : Prop :=
  fs_lookup (archive_path root_ year) files = None.

Definition archive_corrupt (files : FS) (root_ : string)
    (year : Z) (md5_ : string) : Prop :=
  exists f, fs_lookup (archive_path root_ year) files = Some f
            /\ md5 f <> md5_.

(** [int] reads the year token of [y] back as [y]. *)
Definition parses_back (y : Z) : bool :=
  match Py.int (year_token y) with
  | Ok n => n =? y
  | Raise _ => false
  end.



(** Lines 66 to 77 of [__init__]: everything before the scan. *)
Definition init_prelude (root_ : string)
    (transforms_ : option (Sample -> Sample))
    (download checksum_ : bool) : M State unit :=
  set_root root_ ;;;
  set_transforms transforms_ ;;;
  set_checksum checksum_ ;;;
  (if download then _download else ret tt) ;;;
  ok <- _check_integrity ;;
  (if negb ok then raise (RuntimeError integrity_message) else ret tt).


(** The index entry [index_file] builds for a file, when it can. *)
Definition entry_of (w : World) (filename : string) : result RTree.Item :=
  match Py.int (leading_token filename) with
  | Raise e => Raise e
  | Ok year =>
  match Datetime.make year 1 1 0 0 0 with
  | Raise e => Raise e
  | Ok d0 =>
  match Datetime.timestamp_checked (utcoffset w) d0 with
  | Raise e => Raise e
  | Ok t0 =>
  match Datetime.make year 12 31 23 59 59 with
  | Raise e => Raise e
  | Ok d1 =>
  match Datetime.timestamp_checked (utcoffset w) d1 with
  | Raise e => Raise e
  | Ok t1 =>
  match rasterio_open filename w with
  | Raise e => Raise e
  | Ok f =>
      let '(x0, y0, x1, y1) := Rasterio.bounds f in
      let c := (x0, x1, y0, y1, t0, t1) in
      if RTree.valid c then Ok (RTree.mkItem 0 c filename)
      else Raise RTreeError
  end end end end end end.

(** The files after the given fetches, made one after the other. *)
Fixpoint files_after
    (fetch : string -> string -> option string -> FS -> result unit * FS)
    (calls : list FetchCall) (files : FS) : FS :=
  match calls with
  | [] => files
  | c :: calls' =>
      files_after fetch calls'
        (snd (fetch (fc_url c) (fc_dest c) (fc_md5 c) files))
  end.

(** How fetch number [i] (from 0) of [calls] ends when the fetches are
    made in order, starting on [files]. *)
Definition fetch_outcome
    (fetch : string -> string -> option string -> FS -> result unit * FS)
    (calls : list FetchCall) (files : FS) (i : nat) : option (result unit) :=
  match nth_error calls i with
  | Some c =>
      Some (fst (fetch (fc_url c) (fc_dest c) (fc_md5 c)
                   (files_after fetch (firstn i calls) files)))
  | None => None
  end.

(** The line [_download] prints when there is nothing to fetch. *)
Definition verified_message : string :=
  "Files already downloaded and verified".

(** The integrity check accepts the archive of one table entry: the file is
    there and, under checksum verification, has the entry's digest. *)
Definition archive_ok (verify : bool) (files : FS) (root_ : string)
    (year : Z) (md5_ : string) : Prop :=
  exists f, fs_lookup (archive_path root_ year) files = Some f
            /\ (verify = true -> md5 f = md5_).

(** A file the scan can index: its name starts with the four digits of a
    year from 2 to 9998 and it opens as a raster whose bounds are ordered. *)
Definition indexable (w : World) (filename : string) : Prop :=
  exists y f left_ bottom right_ top,
    2 <= y <= 9998
    /\ leading_token filename = year_token y
    /\ rasterio_open filename w = Ok f
    /\ Rasterio.bounds f = (left_, bottom, right_, top)
    /\ left_ <= right_ /\ bottom <= top.

(** The local clock is never a day or more away from UTC. *)
Definition offset_bounded (w : World) : Prop :=
  forall t, -86400 < utcoffset w t < 86400.

(** The values of a signed 32-bit integer. *)
Definition in_int32 (v : Z) : Prop := - 2 ^ 31 <= v < 2 ^ 31.

(** The number of days of a year. *)
Definition days_in_year (y : Z) : Z :=
  if Datetime.is_leap y then 366 else 365.

End Props.

(* ===================================================================== *)
(** ** Sample worlds *)
(* ===================================================================== *)

Module Samples.

Import CDL.

Definition utc : Z -> Z := fun _ => 0.

(** A tree that returns its entries in the order they were inserted. *)
Definition in_order : RTree.Index -> RTree.Index := fun entries => entries.

(** A tree that returns its entries last inserted first. *)
Definition newest_first : RTree.Index -> RTree.Index :=
  fun entries => rev entries.

(** No network: every fetch fails and leaves the files alone. *)
Definition offline : string -> string -> option string -> FS -> result unit * FS :=
  fun _ _ _ files => (Raise (FetchError "offline"), files).

(** A fetcher that stores the archive under its URL's name. *)
Definition store : string -> string -> option string -> FS -> result unit * FS :=
  fun url_ dest md5_ files =>
    (Ok tt,
     (files ++ [(Py.join2 dest (Py.basename url_),
                 mkFile (match md5_ with Some h => h | None => "" end) None)])%list).

(** A 100 by 100 raster with bounds (0,0)-(100,100). *)
Definition grid100 : Rasterio.Raster :=
  {| Rasterio.bounds := (0, 0, 100, 100);
     Rasterio.height := 100;
     Rasterio.width := 100;
     Rasterio.band_dtype := uint8;
     Rasterio.band1 := fun i j => (i + j) mod 256 |}.

(** The archives of the given table entries, each with its digest. *)
Definition archives (root_ : string) (table : list (Z * string)) : FS :=
  map (fun '(y, h) => (archive_path root_ y, mkFile h None)) table.

Definition img2015 : string := "data/cdl/2015_30m_cdls.img".

(** All archives and the raster of 2015. *)
Definition world_2015 : World :=
  {| fs := (archives "data" md5s ++ [(img2015, mkFile "img" (Some grid100))])%list;
     utcoffset := utc; fetcher := offline; fetch_log := [];
     rtree_layout := in_order; stdout := [] |}.

(** All archives, no raster. *)
Definition world_archives_only : World :=
  {| fs := archives "data" md5s;
     utcoffset := utc; fetcher := offline; fetch_log := [];
     rtree_layout := in_order; stdout := [] |}.

(** Nothing under the root. *)
Definition world_empty : World :=
  {| fs := []; utcoffset := utc; fetcher := offline; fetch_log := [];
     rtree_layout := in_order; stdout := [] |}.

(** Every archive but the one of 2020; fetching works. *)
Definition world_missing_2020 : World :=
  {| fs := archives "data" (tl md5s);
     utcoffset := utc; fetcher := store; fetch_log := [];
     rtree_layout := in_order; stdout := [] |}.

(** All archives present, the one of 2020 with a wrong digest. *)
Definition world_corrupt_2020 : World :=
  {| fs := ((archive_path "data" 2020, mkFile "00000000000000000000000000000000" None)
            :: archives "data" (tl md5s))%list;
     utcoffset := utc; fetcher := offline; fetch_log := [];
     rtree_layout := in_order; stdout := [] |}.


(** All archives, a file named for 2014 that is not a raster and, after
    it in scan order, a raster without a year in its name. *)
Definition world_unreadable_first : World :=
  {| fs := (archives "data" md5s
            ++ [("data/cdl/2014_30m_cdls.img", mkFile "junk" None);
                ("data/cdl/latest_30m_cdls.img", mkFile "img" (Some grid100))])%list;
     utcoffset := utc; fetcher := offline; fetch_log := [];
     rtree_layout := in_order; stdout := [] |}.

(** A fetcher that reports success and stores nothing. *)
Definition idle : string -> string -> option string -> FS -> result unit * FS :=
  fun _ _ _ files => (Ok tt, files).

(** Nothing under the root, and a fetcher that stores nothing. *)
Definition world_idle_fetcher : World :=
  {| fs := []; utcoffset := utc; fetcher := idle; fetch_log := [];
     rtree_layout := in_order; stdout := [] |}.

(** All archives and the rasters of 2014 and 2015, with a tree that returns
    the entry inserted last first. *)
Definition world_two_years : World :=
  {| fs := (archives "data" md5s
            ++ [("data/cdl/2014_30m_cdls.img", mkFile "img" (Some grid100));
                (img2015, mkFile "img" (Some grid100))])%list;
     utcoffset := utc; fetcher := offline; fetch_log := [];
     rtree_layout := newest_first; stdout := [] |}.

(** The instance built over [world_two_years]. *)
Definition ds_two_years : Obj :=
  {| root := "data"; transforms := None; checksum := false;
     index := [RTree.mkItem 0 (0, 100, 0, 100, 1420070400, 1451606399) img2015;
               RTree.mkItem 0 (0, 100, 0, 100, 1388534400, 1420070399)
                 "data/cdl/2014_30m_cdls.img"] |}.

(** The instance built over [world_2015]. *)
Definition ds2015 (transforms_ : option (Sample -> Sample)) : Obj :=
  {| root := "data"; transforms := transforms_; checksum := false;
     index := [RTree.mkItem 0 (0, 100, 0, 100, 1420070400, 1451606399) img2015] |}.

(** Noon of 1 July 2015, UTC. *)
Definition mid2015 : Z := 1435752000.

Definition query_10_60 : BoundingBox := mkBoundingBox 10 60 10 60 mid2015 mid2015.

(** A query in 1990, before every indexed year. *)
Definition query_1990 : BoundingBox := mkBoundingBox 10 60 10 60 631152000 631152000.

(** A transform that adds a field to the sample. *)
Definition add_field : Sample -> Sample :=
  fun s => (("bbox", tensor (mk_ndarray int32 (0, 0) [])) :: s)%list.

End Samples.

(* ===================================================================== *)
(** ** The query operation *)
(* ===================================================================== *)

Module QueryFacts.

Import CDL Props.

(** [__getitem__] only reads: it returns [query_outcome] and hands back
    the state it was given. *)
Lemma getitem_unfold (q : BoundingBox) (s : State) :
  __getitem__ q s = (query_outcome (self s) (world s) q, s).
Proof.
  unfold __getitem__, query_outcome, first_hit, bind, lift, get, ret.
  destruct (Rasterio.Window_new _ _ _ _) as [window|e]; [|reflexivity].
  destruct (RTree.intersection _ _) as [hits|e]; [|reflexivity].
  destruct (next hits) as [item|e]; [|reflexivity].
  destruct (rasterio_open _ _) as [f|e]; reflexivity.
Qed.

Lemma wf_bbox_valid (q : BoundingBox) :
  wf_bbox q = true -> RTree.valid (RTree.of_bbox q) = true.
Proof.
  unfold wf_bbox, RTree.valid, RTree.of_bbox. intro H.
  apply andb_prop in H as [H Ht]. apply andb_prop in H as [Hx Hy].
  apply Z.leb_le in Hx, Hy. rewrite Ht.
  destruct (Z.ltb_spec (minx q) (maxx q)) as [|Hx']; [reflexivity|].
  replace (minx q =? maxx q) with true by (symmetry; apply Z.eqb_eq; lia).
  destruct (Z.ltb_spec (miny q) (maxy q)) as [|Hy']; [reflexivity|].
  replace (miny q =? maxy q) with true by (symmetry; apply Z.eqb_eq; lia).
  reflexivity.
Qed.

Lemma wf_bbox_window (q : BoundingBox) :
  wf_bbox q = true ->
  Rasterio.Window_new (minx q) (miny q) (maxx q - minx q) (maxy q - miny q)
  = Ok (query_window q).
Proof.
  unfold wf_bbox, Rasterio.Window_new, query_window. intro H.
  apply andb_prop in H as [H _]. apply andb_prop in H as [Hx Hy].
  apply Z.leb_le in Hx, Hy.
  replace (maxx q - minx q <? 0) with false by (symmetry; apply Z.ltb_ge; lia).
  replace (maxy q - miny q <? 0) with false by (symmetry; apply Z.ltb_ge; lia).
  reflexivity.
Qed.

Lemma filter_none {A} (p : A -> bool) (l : list A) :
  (forall x, In x l -> p x = false) -> filter p l = [].
Proof.
  induction l as [|a l IH]; intro H; simpl; [reflexivity|].
  rewrite (H a (or_introl eq_refl)). apply IH.
  intros x Hx. apply H. now right.
Qed.

(** C1. A query volume that intersects no entry of the index makes
    [__getitem__] raise [StopIteration], the not-found condition of the
    query operation; no sample, empty or otherwise, is returned. *)
Theorem C1_no_hit_raises_not_found (ds : Obj) (w : World) (q : BoundingBox) :
  wf_bbox q = true ->
  (forall it, In it (index ds) ->
              RTree.intersects (RTree.bbox it) (RTree.of_bbox q) = false) ->
  fst (CDL.query ds q w) = Raise StopIteration.
Proof.
  intros Hwf Hnone. unfold CDL.query. rewrite getitem_unfold. simpl.
  unfold query_outcome, first_hit, RTree.intersection.
  rewrite (wf_bbox_window q Hwf), (wf_bbox_valid q Hwf).
  rewrite (filter_none _ _ Hnone). reflexivity.
Qed.

Lemma C1_witness :
  fst (CDL.query (Samples.ds2015 None) Samples.query_1990 Samples.world_2015)
  = Raise StopIteration.
Proof.
  apply C1_no_hit_raises_not_found.
  - reflexivity.
  - intros it [<-|[]]. reflexivity.
Defined.

(** C2. A query that resolves to a raster file reads the window with
    origin [(minx, miny)], width [maxx - minx] and height [maxy - miny];
    the sample's [masks] field holds that window's pixels converted to
    signed 32-bit integers, and when the window lies on the raster's grid
    its shape is [(maxy - miny, maxx - minx)]. *)
Theorem C2_window_and_masks (ds : Obj) (w : World) (q : BoundingBox)
    (it : RTree.Item) (rest : list RTree.Item) (f : Rasterio.Raster) :
  wf_bbox q = true ->
  RTree.intersection (RTree.of_bbox q) (index ds) = Ok (it :: rest) ->
  rasterio_open (RTree.object it) w = Ok f ->
  exists masks : Tensor,
    fst (CDL.query ds q w) = Ok [("masks", masks)]
    /\ masks = tensor (astype_int32
                 (Rasterio.read1 f
                    (Rasterio.mkWindow (minx q) (miny q)
                       (maxx q - minx q) (maxy q - miny q))))
    /\ tensor_dtype masks = int32
    /\ (0 <= minx q -> maxx q <= Rasterio.width f ->
        0 <= miny q -> maxy q <= Rasterio.height f ->
        tensor_shape masks = (maxy q - miny q, maxx q - minx q)
        /\ tensor_data masks
           = map (fun i =>
                    map (fun j => wrap_int32 (Rasterio.band1 f i j))
                        (Rasterio.zrange (minx q) (maxx q - minx q)))
                 (Rasterio.zrange (miny q) (maxy q - miny q))).
Proof.
  intros Hwf Hhits Hopen.
  eexists. split; [|split; [reflexivity|split; [reflexivity|]]].
  - unfold CDL.query. rewrite getitem_unfold. simpl.
    unfold query_outcome, first_hit.
    rewrite (wf_bbox_window q Hwf), Hhits. simpl. rewrite Hopen.
    reflexivity.
  - intros Hx0 Hx1 Hy0 Hy1.
    unfold wf_bbox in Hwf.
    apply andb_prop in Hwf as [Hwf _]. apply andb_prop in Hwf as [Hx Hy].
    apply Z.leb_le in Hx, Hy.
    unfold tensor_shape, tensor_data, astype_int32, Rasterio.read1. simpl.
    replace (miny q + (maxy q - miny q)) with (maxy q) by lia.
    replace (minx q + (maxx q - minx q)) with (maxx q) by lia.
    rewrite (Z.max_r 0 (miny q)), (Z.max_r 0 (minx q)) by lia.
    rewrite (Z.min_r _ (maxy q)), (Z.min_r _ (maxx q)) by lia.
    rewrite (Z.max_r 0 (maxy q - miny q)), (Z.max_r 0 (maxx q - minx q)) by lia.
    split; [reflexivity|].
    rewrite map_map. apply map_ext. intro i. apply map_map.
Qed.

Lemma C2_witness :
  exists masks : Tensor,
    fst (CDL.query (Samples.ds2015 None) Samples.query_10_60 Samples.world_2015)
    = Ok [("masks", masks)]
    /\ tensor_shape masks = (50, 50)
    /\ tensor_dtype masks = int32.
Proof.
  destruct (C2_window_and_masks (Samples.ds2015 None) Samples.world_2015
              Samples.query_10_60
              (RTree.mkItem 0 (0, 100, 0, 100, 1420070400, 1451606399)
                 Samples.img2015)
              [] Samples.grid100 eq_refl eq_refl eq_refl)
    as (masks & Hq & _ & Hd & Hs).
  exists masks. split; [exact Hq|]. split; [|exact Hd].
  apply Hs; simpl; lia.
Defined.

Lemma getitem_ignores_transforms (ds : Obj) (w : World) (q : BoundingBox)
    (t : option (Sample -> Sample)) :
  fst (CDL.query (mkObj (root ds) t (checksum ds) (index ds)) q w)
  = fst (CDL.query ds q w).
Proof.
  unfold CDL.query. rewrite !getitem_unfold. reflexivity.
Qed.

(** C4. Evaluation at the failing input: the instance is built with the
    transform [add_field], and the query returns the resolved sample as
    it is, not the transform applied to it. *)
Theorem C4_transform_not_applied :
  fst (CDL.new "data" (Some Samples.add_field) false false Samples.world_2015)
  = Ok (Samples.ds2015 (Some Samples.add_field))
  /\ exists resolved : Sample,
       fst (CDL.query (Samples.ds2015 None) Samples.query_10_60
              Samples.world_2015) = Ok resolved
       /\ fst (CDL.query (Samples.ds2015 (Some Samples.add_field))
                 Samples.query_10_60 Samples.world_2015) = Ok resolved
       /\ Ok resolved <> Ok (Samples.add_field resolved).
Proof.
  split; [reflexivity|].
  eexists. split; [reflexivity|]. split; [reflexivity|].
  discriminate.
Qed.

(** C8. Issuing a query twice in a row on an instance resolves to the
    same index entry, the first intersecting one, both times, and gives
    the same outcome; a returned sample is read from that entry's file. *)
Theorem C8_query_twice_same_file (ds : Obj) (w : World) (q : BoundingBox) :
  let run1 := CDL.query ds q w in
  let run2 := CDL.__getitem__ q (snd run1) in
  first_hit (self (snd run1)) q = first_hit ds q
  /\ fst run2 = fst run1
  /\ snd run2 = snd run1
  /\ (forall sample, fst run1 = Ok sample ->
        exists it f,
          first_hit ds q = Ok it
          /\ rasterio_open (RTree.object it) w = Ok f
          /\ sample = [("masks",
                        tensor (astype_int32
                                  (Rasterio.read1 f (query_window q))))]).
Proof.
  unfold CDL.query. cbv zeta. rewrite !getitem_unfold. simpl.
  repeat split.
  intros sample Hs. unfold query_outcome in Hs.
  unfold Rasterio.Window_new in Hs.
  destruct ((maxx q - minx q <? 0) || (maxy q - miny q <? 0));
    [discriminate|].
  destruct (first_hit ds q) as [it|e]; [|discriminate].
  destruct (rasterio_open (RTree.object it) w) as [f|e] eqn:Hf;
    [|discriminate].
  exists it, f. repeat split; [exact Hf|]. now inversion Hs.
Qed.

(** C10. [__getitem__] leaves the instance as it found it, whether it
    returns a sample or raises: root, transforms, checksum flag and index
    are the same before and after, and so is the world. *)
Theorem C10_query_preserves_state (ds : Obj) (w : World) (q : BoundingBox) :
  let s' := snd (CDL.query ds q w) in
  s' = mkState ds w
  /\ root (self s') = root ds
  /\ transforms (self s') = transforms ds
  /\ checksum (self s') = checksum ds
  /\ index (self s') = index ds
  /\ world s' = w.
Proof.
  unfold CDL.query. cbv zeta. rewrite getitem_unfold. simpl.
  repeat split.
Qed.

End QueryFacts.

(* ===================================================================== *)
(** ** Reading a year from a file name *)
(* ===================================================================== *)

Module TokenFacts.

Import Props.





Lemma parses_back_all :
  forallb parses_back (Rasterio.zrange 0 10000) = true.
Proof. vm_compute. reflexivity. Qed.

(** [int] reads a four-digit year token back as the year. *)
Lemma int_year_token (y : Z) :
  0 <= y <= 9999 -> Py.int (year_token y) = Ok y.
Proof.
  intro Hy.
  pose proof parses_back_all as Hall.
  rewrite forallb_forall in Hall.
  assert (Hin : In y (Rasterio.zrange 0 10000)).
  { unfold Rasterio.zrange. apply in_map_iff.
    exists (Z.to_nat y). split; [lia|]. apply in_seq. lia. }
  specialize (Hall y Hin). unfold parses_back in Hall.
  destruct (Py.int (year_token y)) as [n|e]; [|discriminate].
  apply Z.eqb_eq in Hall. now subst.
Qed.




End TokenFacts.

(* ===================================================================== *)
(** ** Construction: integrity check, download and scan *)
(* ===================================================================== *)

Module ConstructionFacts.

Import CDL Props.


(** *** The integrity check *)

Lemma check_integrity_unfold (s : State) :
  _check_integrity s = (Ok (check_loop (self s) (fs (world s)) md5s), s).
Proof. reflexivity. Qed.

Lemma check_loop_fails (o : Obj) (files : FS) (table : list (Z * string))
    (y : Z) (h : string) :
  In (y, h) table ->
  Torchvision.check_integrity files (archive_path (root o) y)
    (if checksum o then Some h else None) = false ->
  check_loop o files table = false.
Proof.
  induction table as [|[y' h'] table IH]; intros Hin Hbad; [contradiction|].
  cbn [check_loop]. destruct Hin as [Heq|Hin].
  - inversion Heq; subst. rewrite Hbad. reflexivity.
  - destruct (negb _); [reflexivity|]. now apply IH.
Qed.

Lemma check_loop_view (o1 o2 : Obj) (files1 files2 : FS)
    (table : list (Z * string)) :
  root o1 = root o2 -> checksum o1 = checksum o2 ->
  (forall y h, In (y, h) table ->
     archive_view (checksum o1) files1 (archive_path (root o1) y)
     = archive_view (checksum o1) files2 (archive_path (root o1) y)) ->
  check_loop o1 files1 table = check_loop o2 files2 table.
Proof.
  intros Hr Hc. induction table as [|[y h] table IH]; intro Hv;
    [reflexivity|].
  cbn [check_loop]. rewrite <- Hr, <- Hc.
  assert (Hsame :
    Torchvision.check_integrity files1 (archive_path (root o1) y)
      (if checksum o1 then Some h else None)
    = Torchvision.check_integrity files2 (archive_path (root o1) y)
        (if checksum o1 then Some h else None)).
  { specialize (Hv y h (or_introl eq_refl)).
    unfold archive_view in Hv. unfold Torchvision.check_integrity.
    destruct (fs_lookup _ files1) as [f1|], (fs_lookup _ files2) as [f2|];
      try discriminate; [|reflexivity].
    destruct (checksum o1); [|reflexivity].
    cbn in Hv. inversion Hv as [Hm]. now rewrite Hm. }
  rewrite Hsame. destruct (negb _); [reflexivity|].
  apply IH. intros y' h' Hin. apply (Hv y' h'). now right.
Qed.

(** *** The download loop *)

Lemma download_entry_unfold (entry : Z * string) (s : State) :
  download_entry entry s
  = (fst (fetcher (world s) (fc_url (fetch_call (self s) entry))
            (fc_dest (fetch_call (self s) entry))
            (fc_md5 (fetch_call (self s) entry)) (fs (world s))),
     mkState (self s)
       {| fs := snd (fetcher (world s) (fc_url (fetch_call (self s) entry))
                       (fc_dest (fetch_call (self s) entry))
                       (fc_md5 (fetch_call (self s) entry)) (fs (world s)));
          utcoffset := utcoffset (world s);
          fetcher := fetcher (world s);
          fetch_log := (fetch_log (world s)
                        ++ [fetch_call (self s) entry])%list;
          rtree_layout := rtree_layout (world s);
          stdout := stdout (world s) |}).
Proof.
  destruct entry as [y h].
  unfold download_entry, bind, get, in_world,
    Torchvision.download_and_extract_archive, fetch_call.
  cbn [fc_url fc_dest fc_md5 world self].
  destruct (fetcher (world s) _ _ _ _) as [r files]. reflexivity.
Qed.

Lemma fetch_outcome_S
    (fetch : string -> string -> option string -> FS -> result unit * FS)
    (c : FetchCall) (calls : list FetchCall) (files : FS) (i : nat) :
  fetch_outcome fetch (c :: calls) files (S i)
  = fetch_outcome fetch calls
      (snd (fetch (fc_url c) (fc_dest c) (fc_md5 c) files)) i.
Proof. reflexivity. Qed.

(** What a run of the download loop leaves: the calls it made are the
    first [k] of the table's, every one before the last returned, the run
    raises just when the last one raised, and it returns just when all
    were made and returned. *)
Lemma download_loop_run (table : list (Z * string)) :
  forall (s s' : State) (r : result unit),
    for_each table download_entry s = (r, s') ->
    self s' = self s
    /\ fetcher (world s') = fetcher (world s)
    /\ utcoffset (world s') = utcoffset (world s)
    /\ rtree_layout (world s') = rtree_layout (world s)
    /\ stdout (world s') = stdout (world s)
    /\ exists k : nat,
         (k <= List.length table)%nat
         /\ (table <> [] -> (1 <= k)%nat)
         /\ fetch_log (world s')
            = (fetch_log (world s)
               ++ firstn k (map (fetch_call (self s)) table))%list
         /\ fs (world s')
            = files_after (fetcher (world s))
                (firstn k (map (fetch_call (self s)) table)) (fs (world s))
         /\ (forall i, (S i < k)%nat ->
               fetch_outcome (fetcher (world s))
                 (map (fetch_call (self s)) table) (fs (world s)) i
               = Some (Ok tt))
         /\ (r = Ok tt ->
             k = List.length table
             /\ forall i, (i < k)%nat ->
                  fetch_outcome (fetcher (world s))
                    (map (fetch_call (self s)) table) (fs (world s)) i
                  = Some (Ok tt))
         /\ (forall e, r = Raise e ->
               fetch_outcome (fetcher (world s))
                 (map (fetch_call (self s)) table) (fs (world s)) (k - 1)
               = Some (Raise e)).
Proof.
  induction table as [|entry table IH]; intros s s' r Hrun.
  - cbn in Hrun. injection Hrun as <- <-.
    repeat split. exists 0%nat. cbn [List.length firstn map files_after].
    rewrite app_nil_r.
    repeat split; try lia; try congruence; discriminate.
  - cbn [for_each] in Hrun. unfold bind in Hrun.
    rewrite download_entry_unfold in Hrun.
    cbn [map].
    set (c := fetch_call (self s) entry) in *.
    set (step := fetcher (world s) (fc_url c) (fc_dest c) (fc_md5 c)
                   (fs (world s))) in *.
    destruct (fst step) as [[]|e] eqn:Hstep.
    + apply IH in Hrun.
      cbn [self world fetcher utcoffset fetch_log fs rtree_layout stdout]
        in Hrun.
      destruct Hrun as (Hs & Hf & Hu & Hl & Ho & k & Hk & Hk1 & Hlog & Hfs
                        & Hbefore & Hok & Herr).
      repeat split; try assumption.
      exists (S k). cbn [List.length firstn files_after].
      fold step.
      split; [lia|]. split; [lia|].
      split; [rewrite Hlog, <- app_assoc; reflexivity|].
      split; [exact Hfs|].
      split; [|split].
      * intros [|i] Hi.
        -- unfold fetch_outcome. cbn [nth_error firstn files_after].
           fold step. now rewrite Hstep.
        -- rewrite fetch_outcome_S. fold step. apply Hbefore. lia.
      * intro Hr. destruct (Hok Hr) as [-> Hall]. split; [reflexivity|].
        intros [|i] Hi.
        -- unfold fetch_outcome. cbn [nth_error firstn files_after].
           fold step. now rewrite Hstep.
        -- rewrite fetch_outcome_S. fold step. apply Hall. lia.
      * intros e He. specialize (Herr e He).
        destruct k as [|k].
        -- destruct table as [|entry' table'];
             [cbn in Herr; discriminate|].
           assert (H1 : (1 <= 0)%nat) by (apply Hk1; discriminate).
           lia.
        -- replace (S (S k) - 1)%nat with (S k) by lia.
           rewrite fetch_outcome_S. fold step.
           replace (S k - 1)%nat with k in Herr by lia. exact Herr.
    + injection Hrun as <- <-.
      cbn [self world fetcher utcoffset fetch_log fs rtree_layout stdout].
      repeat split. exists 1%nat. cbn [List.length firstn files_after].
      fold step.
      split; [lia|]. split; [lia|].
      split; [reflexivity|]. split; [reflexivity|].
      split; [intros i Hi; lia|].
      split; [discriminate|].
      intros e' He'. injection He' as <-.
      unfold fetch_outcome. cbn [Nat.sub nth_error firstn files_after].
      fold step. now rewrite Hstep.
Qed.

(** *** The scan *)

Lemma same_entries_perm (l1 l2 : list RTree.Item) :
  RTree.same_entries l1 l2 = true -> Permutation l1 l2.
Proof.
  unfold RTree.same_entries. intro H. rewrite forallb_forall in H.
  apply (Permutation_count_occ RTree.Item_eq_dec). intro x.
  destruct (in_dec RTree.Item_eq_dec x (l1 ++ l2)%list) as [Hin|Hout].
  - apply Nat.eqb_eq. now apply H.
  - assert (H1 : ~ In x l1) by (intro; apply Hout, in_or_app; now left).
    assert (H2 : ~ In x l2) by (intro; apply Hout, in_or_app; now right).
    apply (count_occ_not_In RTree.Item_eq_dec) in H1, H2. congruence.
Qed.

(** Whatever the tree's order, it returns the entries it was given. *)
Lemma arrange_perm (layout : RTree.Index -> RTree.Index)
    (entries : RTree.Index) :
  Permutation (RTree.arrange layout entries) entries.
Proof.
  unfold RTree.arrange.
  destruct (RTree.same_entries (layout entries) entries) eqn:H;
    [now apply same_entries_perm|reflexivity].
Qed.

Lemma index_file_unfold (filename : string) (s : State) :
  index_file filename s
  = match entry_of (world s) filename with
    | Ok it =>
        (Ok tt,
         mkState (mkObj (root (self s)) (transforms (self s))
                    (checksum (self s))
                    (RTree.arrange (rtree_layout (world s))
                       (index (self s) ++ [it])%list))
                 (world s))
    | Raise e => (Raise e, s)
    end.
Proof.
  unfold index_file, entry_of, leading_token, bind, lift, get.
  destruct (Py.int _) as [year|e]; [|reflexivity].
  destruct (Datetime.make year 1 1 0 0 0) as [d0|e]; [|reflexivity].
  destruct (Datetime.timestamp_checked _ d0) as [t0|e]; [|reflexivity].
  destruct (Datetime.make year 12 31 23 59 59) as [d1|e]; [|reflexivity].
  destruct (Datetime.timestamp_checked _ d1) as [t1|e]; [|reflexivity].
  destruct (rasterio_open filename (world s)) as [f|e]; [|reflexivity].
  destruct (Rasterio.bounds f) as [[[x0 y0] x1] y1].
  unfold RTree.insert.
  destruct (RTree.valid _); reflexivity.
Qed.

Lemma scan_frame (files : list string) :
  forall (s s' : State) (r : result unit),
    for_each files index_file s = (r, s') ->
    world s' = world s
    /\ root (self s') = root (self s)
    /\ transforms (self s') = transforms (self s)
    /\ checksum (self s') = checksum (self s).
Proof.
  induction files as [|f files IH]; intros s s' r Hrun.
  - inversion Hrun; subst. repeat split.
  - cbn [for_each] in Hrun. unfold bind in Hrun.
    rewrite index_file_unfold in Hrun.
    destruct (entry_of (world s) f) as [it|e].
    + apply IH in Hrun. exact Hrun.
    + inversion Hrun; subst. repeat split.
Qed.

Lemma scan_entries (files : list string) :
  forall s s' : State,
    for_each files index_file s = (Ok tt, s') ->
    exists items,
      Permutation (index (self s')) (index (self s) ++ items)%list
      /\ Forall2 (fun f it => entry_of (world s) f = Ok it) files items.
Proof.
  induction files as [|f files IH]; intros s s' Hrun.
  - injection Hrun as <-. exists []. rewrite app_nil_r.
    split; [reflexivity|constructor].
  - cbn [for_each] in Hrun. unfold bind in Hrun.
    rewrite index_file_unfold in Hrun.
    destruct (entry_of (world s) f) as [it|e] eqn:He; [|discriminate].
    apply IH in Hrun. cbn [self world index] in Hrun.
    destruct Hrun as (items & Hidx & Hall).
    exists (it :: items). split.
    + rewrite Hidx.
      rewrite (arrange_perm (rtree_layout (world s))
                 (index (self s) ++ [it])%list).
      rewrite <- app_assoc. reflexivity.
    + constructor; assumption.
Qed.


(** *** [__init__] as prelude and scan *)

Lemma download_unfold (s : State) :
  _download s
  = if check_loop (self s) (fs (world s)) md5s
    then (Ok tt, mkState (self s) (snd (print verified_message (world s))))
    else for_each md5s download_entry s.
Proof.
  unfold _download, bind. rewrite check_integrity_unfold.
  destruct (check_loop _ _ _); reflexivity.
Qed.

(** [_download] leaves the instance as it is, whatever it does to the
    world. *)
Lemma download_self (s : State) : self (snd (_download s)) = self s.
Proof.
  rewrite download_unfold.
  destruct (check_loop _ _ _); [reflexivity|].
  destruct (for_each md5s download_entry s) as [r s'] eqn:Hrun.
  apply download_loop_run in Hrun. cbn [snd]. tauto.
Qed.

(** The state in which the download phase of a construction starts. *)
Lemma prelude_unfold (root_ : string) (ts : option (Sample -> Sample))
    (dl cs : bool) (w : World) :
  init_prelude root_ ts dl cs (mkState fresh w)
  = match (if dl then _download else ret tt)
            (mkState (mkObj root_ ts cs []) w) with
    | (Ok _, s1) =>
        if check_loop (self s1) (fs (world s1)) md5s then (Ok tt, s1)
        else (Raise (RuntimeError integrity_message), s1)
    | (Raise e, s1) => (Raise e, s1)
    end.
Proof.
  unfold init_prelude, bind, set_root, set_transforms, set_checksum.
  cbn [self world fresh root transforms checksum index].
  destruct ((if dl then _download else ret tt) _) as [[[]|e] s1];
    [|reflexivity].
  rewrite check_integrity_unfold.
  destruct (check_loop _ _ _); reflexivity.
Qed.

Lemma init_split (root_ : string) (ts : option (Sample -> Sample))
    (dl cs : bool) (s : State) :
  __init__ root_ ts dl cs s
  = match init_prelude root_ ts dl cs s with
    | (Ok _, s1) =>
        for_each (Glob.iglob (fileglob root_) (fs (world s1))) index_file s1
    | (Raise e, s1) => (Raise e, s1)
    end.
Proof.
  unfold __init__, init_prelude, bind, set_root, set_transforms,
    set_checksum, get, fileglob.
  destruct ((if dl then _download else ret tt) _) as [[[]|e] s1];
    [|reflexivity].
  destruct (_check_integrity s1) as [[ok|e] s2]; [|reflexivity].
  destruct ok; reflexivity.
Qed.

Lemma new_unfold (root_ : string) (ts : option (Sample -> Sample))
    (dl cs : bool) (w : World) :
  CDL.new root_ ts dl cs w
  = match init_prelude root_ ts dl cs (mkState fresh w) with
    | (Ok _, s1) =>
        match for_each (Glob.iglob (fileglob root_) (fs (world s1)))
                index_file s1 with
        | (Ok _, s2) => (Ok (self s2), world s2)
        | (Raise e, s2) => (Raise e, world s2)
        end
    | (Raise e, s1) => (Raise e, world s1)
    end.
Proof.
  unfold CDL.new. rewrite init_split.
  destruct (init_prelude _ _ _ _ _) as [[[]|e] s1]; reflexivity.
Qed.

(** The prelude fixes the attributes and leaves the index empty; only the
    download phase touches the world. *)
Lemma prelude_frame (root_ : string) (ts : option (Sample -> Sample))
    (dl cs : bool) (w : World) (r : result unit) (s1 : State) :
  init_prelude root_ ts dl cs (mkState fresh w) = (r, s1) ->
  self s1 = mkObj root_ ts cs []
  /\ world s1
     = world (snd ((if dl then _download else ret tt)
                     (mkState (mkObj root_ ts cs []) w))).
Proof.
  rewrite prelude_unfold.
  assert (Hself : self (snd ((if dl then _download else ret tt)
                               (mkState (mkObj root_ ts cs []) w)))
                  = mkObj root_ ts cs []).
  { destruct dl; [apply download_self|reflexivity]. }
  destruct ((if dl then _download else ret tt) _) as [[[]|e] s0].
  - cbn [snd] in *.
    destruct (check_loop (self s0) (fs (world s0)) md5s);
      intro H; injection H as _ <-; split; assumption || reflexivity.
  - cbn [snd] in *. intro H. injection H as _ <-.
    split; assumption || reflexivity.
Qed.

(** The world a construction leaves behind is the one its download phase
    produced. *)
Lemma new_world (root_ : string) (ts : option (Sample -> Sample))
    (dl cs : bool) (w : World) :
  snd (CDL.new root_ ts dl cs w)
  = world (snd ((if dl then _download else ret tt)
                  (mkState (mkObj root_ ts cs []) w))).
Proof.
  rewrite new_unfold.
  destruct (init_prelude _ _ _ _ _) as [r s1] eqn:Hp.
  pose proof (prelude_frame _ _ _ _ _ _ _ Hp) as [_ Hw].
  destruct r as [[]|e]; [|exact Hw].
  destruct (for_each _ index_file s1) as [r2 s2] eqn:Hscan.
  pose proof (scan_frame _ _ _ _ Hscan) as (Hw2 & _).
  destruct r2 as [[]|e]; cbn [snd]; congruence.
Qed.

(** A successful construction indexes every discovered file and nothing
    else. *)
Lemma new_ok_index (root_ : string) (ts : option (Sample -> Sample))
    (dl cs : bool) (w w' : World) (ds : Obj) :
  CDL.new root_ ts dl cs w = (Ok ds, w') ->
  root ds = root_ /\ transforms ds = ts /\ checksum ds = cs
  /\ check_loop ds (fs w') md5s = true
  /\ exists items,
       Permutation (index ds) items
       /\ Forall2 (fun f it => entry_of w' f = Ok it)
            (Glob.iglob (fileglob root_) (fs w')) items.
Proof.
  rewrite new_unfold.
  destruct (init_prelude _ _ _ _ _) as [r s1] eqn:Hp.
  pose proof (prelude_frame _ _ _ _ _ _ _ Hp) as [Hself _].
  assert (Hchk : r = Ok tt -> check_loop (self s1) (fs (world s1)) md5s = true).
  { rewrite prelude_unfold in Hp.
    destruct ((if dl then _download else ret tt) _) as [[[]|e] s0].
    - destruct (check_loop (self s0) (fs (world s0)) md5s) eqn:Hc;
        injection Hp as <- <-; [intros _; exact Hc|discriminate].
    - injection Hp as <- <-. discriminate. }
  destruct r as [[]|e]; [|discriminate].
  specialize (Hchk eq_refl).
  destruct (for_each _ index_file s1) as [r2 s2] eqn:Hscan.
  pose proof (scan_frame _ _ _ _ Hscan) as (Hw2 & Hr2 & Ht2 & Hc2).
  destruct r2 as [[]|e]; [|discriminate].
  intro H. injection H as <- <-.
  apply scan_entries in Hscan as (items & Hidx & Hall).
  rewrite Hself in *. cbn [root transforms checksum index] in *.
  rewrite Hw2. repeat split; try assumption.
  - destruct (self s2); cbn in *; subst. exact Hchk.
  - exists items. cbn [app] in Hidx. split; assumption.
Qed.


(** *** The claims about construction *)

(** C3, as amended. With download enabled the integrity check is made once
    for the whole table.  When it passes nothing is fetched: the files and
    the record of fetches are as before.  When it fails the fetcher is
    invoked for the table's entries in table order, whether or not an
    entry's own check passes, each with the year's URL, the destination
    [root/cdl] and the entry's digest under checksum verification (none
    otherwise), up to and including the first fetch that fails: [k] calls
    are made, every one before the last returned, and fewer than thirteen
    are made only when the last one raised, which is then what construction
    raises. *)
Theorem C3_download_all_or_nothing (root_ : string)
    (ts : option (Sample -> Sample)) (cs : bool) (w : World) :
  let o := mkObj root_ ts cs [] in
  let calls := map (fetch_call o) md5s in
  let outcome := fetch_outcome (fetcher w) calls (fs w) in
  let r := fst (CDL.new root_ ts true cs w) in
  let w' := snd (CDL.new root_ ts true cs w) in
  (check_loop o (fs w) md5s = true ->
   fetch_log w' = fetch_log w /\ fs w' = fs w)
  /\ (check_loop o (fs w) md5s = false ->
      exists k : nat,
        (1 <= k <= 13)%nat
        /\ fetch_log w' = (fetch_log w ++ firstn k calls)%list
        /\ (forall i, (S i < k)%nat -> outcome i = Some (Ok tt))
        /\ ((k < 13)%nat ->
            exists e, outcome (k - 1)%nat = Some (Raise e) /\ r = Raise e)
        /\ (forall e, outcome (k - 1)%nat = Some (Raise e) -> r = Raise e)).
Proof.
  cbv zeta. rewrite new_world. split.
  - rewrite download_unfold. cbn [self world]. intros ->.
    split; reflexivity.
  - intro Hchk.
    rewrite new_unfold, prelude_unfold, download_unfold.
    cbn [self world]. rewrite Hchk.
    destruct (for_each md5s download_entry _) as [r1 s1] eqn:Hrun.
    apply download_loop_run in Hrun
      as (_ & _ & _ & _ & _ & k & Hk & Hk1 & Hlog & _ & Hbefore & Hok & Herr).
    cbn [snd self world] in *.
    exists k. split; [split; [apply Hk1; discriminate|exact Hk]|].
    split; [exact Hlog|]. split; [exact Hbefore|].
    destruct r1 as [[]|e1].
    + destruct (Hok eq_refl) as [Hall Hevery]. split.
      * intro Hlt. cbn in Hall. lia.
      * intros e He. rewrite Hevery in He; [discriminate|].
        assert (1 <= k)%nat by (apply Hk1; discriminate). lia.
    + specialize (Herr e1 eq_refl). split.
      * intros _. exists e1. split; [exact Herr|reflexivity].
      * intros e He. rewrite Herr in He. injection He as <-. reflexivity.
Qed.

Lemma C3_witness :
  exists k : nat,
    (1 <= k <= 13)%nat
    /\ fetch_log (snd (CDL.new "data" None true false
                         Samples.world_missing_2020))
       = (fetch_log Samples.world_missing_2020
          ++ firstn k (map (fetch_call (mkObj "data" None false [])) md5s))%list
    /\ (forall i, (S i < k)%nat ->
          fetch_outcome (fetcher Samples.world_missing_2020)
            (map (fetch_call (mkObj "data" None false [])) md5s)
            (fs Samples.world_missing_2020) i = Some (Ok tt))
    /\ ((k < 13)%nat ->
        exists e,
          fetch_outcome (fetcher Samples.world_missing_2020)
            (map (fetch_call (mkObj "data" None false [])) md5s)
            (fs Samples.world_missing_2020) (k - 1)%nat = Some (Raise e)
          /\ fst (CDL.new "data" None true false Samples.world_missing_2020)
             = Raise e)
    /\ (forall e,
          fetch_outcome (fetcher Samples.world_missing_2020)
            (map (fetch_call (mkObj "data" None false [])) md5s)
            (fs Samples.world_missing_2020) (k - 1)%nat = Some (Raise e) ->
          fst (CDL.new "data" None true false Samples.world_missing_2020)
          = Raise e).
Proof.
  apply (proj2 (C3_download_all_or_nothing "data" None false
                  Samples.world_missing_2020)).
  reflexivity.
Defined.

(** C3, as stated, fails: with only the archive of 2020 missing, the
    archive of 2019 passes its own integrity check and is fetched all the
    same. *)
Lemma C3_counterexample :
  ~ (Torchvision.check_integrity (fs Samples.world_missing_2020)
       (archive_path "data" 2019) None = true ->
     ~ In (mkFetchCall (url 2019) "data/cdl" None)
          (fetch_log
             (snd (CDL.new "data" None true false
                     Samples.world_missing_2020)))).
Proof.
  intro H. apply H; [reflexivity|].
  vm_compute. right. left. reflexivity.
Qed.

(** C5, as amended. With download disabled, construction fails with the
    integrity error, whose message tells to enable download, whenever
    some archive of the table is missing or, under checksum verification,
    has another digest than the table's; nothing is fetched, the world is
    left as it was and no instance is returned. *)
Theorem C5_integrity_error (root_ : string)
    (ts : option (Sample -> Sample)) (cs : bool) (w : World) :
  (exists y h,
      In (y, h) md5s
      /\ (archive_missing (fs w) root_ y
          \/ (cs = true /\ archive_corrupt (fs w) root_ y h))) ->
  CDL.new root_ ts false cs w = (Raise (RuntimeError integrity_message), w)
  /\ Py.endswith "You can use download=True to download it"
       integrity_message = true.
Proof.
  intros (y & h & Hin & Hbad). split; [|reflexivity].
  rewrite new_unfold, prelude_unfold. cbn [ret self world].
  rewrite (check_loop_fails (mkObj root_ ts cs []) (fs w) md5s y h Hin);
    [reflexivity|].
  unfold Torchvision.check_integrity. cbn [root checksum].
  destruct Hbad as [Hmiss|[-> (f & Hf & Hmd5)]].
  - unfold archive_missing in Hmiss. rewrite Hmiss. reflexivity.
  - rewrite Hf. apply String.eqb_neq. exact Hmd5.
Qed.

Lemma C5_witness :
  CDL.new "data" None false false Samples.world_empty
  = (Raise (RuntimeError integrity_message), Samples.world_empty).
Proof.
  apply (C5_integrity_error "data" None false Samples.world_empty).
  exists 2020, "97b3b5fd62177c9ed857010bca146f36".
  split; [left; reflexivity|]. left. reflexivity.
Defined.

(** C5, as stated, fails: a corrupt archive goes unnoticed when checksum
    verification is off, and construction succeeds. *)
Lemma C5_counterexample :
  ~ (archive_corrupt (fs Samples.world_corrupt_2020) "data" 2020
       "97b3b5fd62177c9ed857010bca146f36" ->
     exists msg,
       fst (CDL.new "data" None false false Samples.world_corrupt_2020)
       = Raise (RuntimeError msg)).
Proof.
  intro H. destruct H as [msg Hmsg].
  - eexists. split; [reflexivity|]. cbn [md5]. discriminate.
  - vm_compute in Hmsg. discriminate.
Qed.





(** C9. The table has thirteen archives; the integrity check sees of the
    world only whether each of them is there and, under checksum
    verification, its digest, so no raster file has any part in it; and
    a root with every archive and no raster file passes construction with
    an empty index. *)
Theorem C9_integrity_sees_archives_only :
  List.length md5s = 13%nat
  /\ (forall (o1 o2 : Obj) (w1 w2 : World),
        root o1 = root o2 -> checksum o1 = checksum o2 ->
        (forall y h, In (y, h) md5s ->
           archive_view (checksum o1) (fs w1) (archive_path (root o1) y)
           = archive_view (checksum o1) (fs w2) (archive_path (root o1) y)) ->
        fst (_check_integrity (mkState o1 w1))
        = fst (_check_integrity (mkState o2 w2)))
  /\ (forall (root_ : string) (ts : option (Sample -> Sample)) (cs : bool)
             (w : World),
        check_loop (mkObj root_ ts cs []) (fs w) md5s = true ->
        Glob.iglob (fileglob root_) (fs w) = [] ->
        CDL.new root_ ts false cs w = (Ok (mkObj root_ ts cs []), w)).
Proof.
  split; [reflexivity|split].
  - intros o1 o2 w1 w2 Hr Hc Hv. rewrite !check_integrity_unfold.
    cbn [fst self world]. f_equal. now apply check_loop_view.
  - intros root_ ts cs w Hchk Hglob.
    rewrite new_unfold, prelude_unfold. cbn [ret self world].
    rewrite Hchk. cbn [self world]. rewrite Hglob. reflexivity.
Qed.

Lemma C9_witness :
  fst (_check_integrity
         (mkState (mkObj "data" None false []) Samples.world_2015))
  = fst (_check_integrity
           (mkState (mkObj "data" None false []) Samples.world_archives_only))
  /\ CDL.new "data" None false false Samples.world_archives_only
     = (Ok (mkObj "data" None false []), Samples.world_archives_only).
Proof.
  destruct C9_integrity_sees_archives_only as (_ & Hview & Hempty).
  split.
  - apply Hview; try reflexivity.
    intros y h Hin.
    repeat (destruct Hin as [Heq|Hin];
            [injection Heq as <- <-; reflexivity|]).
    contradiction.
  - apply Hempty; reflexivity.
Defined.

End ConstructionFacts.

(* ===================================================================== *)
(** ** Further properties of the class *)
(* ===================================================================== *)

Module MoreFacts.

Import CDL Props QueryFacts ConstructionFacts.

(** *** The temporal bounds of a year *)

Lemma wall_year_span (y : Z) :
  Datetime.wall_seconds (Datetime.mk_datetime y 12 31 23 59 59)
  - Datetime.wall_seconds (Datetime.mk_datetime y 1 1 0 0 0)
  = days_in_year y * 86400 - 1.
Proof.
  unfold Datetime.wall_seconds, Datetime.ymd2ord, Datetime.days_before_month,
    days_in_year.
  cbn [Datetime.year Datetime.month Datetime.day Datetime.hour
       Datetime.minute Datetime.second].
  change (nth (Z.to_nat 12) Datetime.DAYS_BEFORE_MONTH 0) with 334.
  change (nth (Z.to_nat 1) Datetime.DAYS_BEFORE_MONTH 0) with 0.
  change (2 <? 12) with true. change (2 <? 1) with false.
  cbn [andb]. destruct (Datetime.is_leap y); lia.
Qed.







(** *** One step of the scan *)

Lemma entry_of_shape (w : World) (filename : string) (it : RTree.Item) :
  entry_of w filename = Ok it ->
  RTree.id it = 0 /\ RTree.object it = filename
  /\ is_ok (rasterio_open filename w) = true.
Proof.
  unfold entry_of.
  destruct (Py.int _) as [y|e]; [|discriminate].
  destruct (Datetime.make y 1 1 0 0 0) as [d0|e]; [|discriminate].
  destruct (Datetime.timestamp_checked _ d0) as [t0|e]; [|discriminate].
  destruct (Datetime.make y 12 31 23 59 59) as [d1|e]; [|discriminate].
  destruct (Datetime.timestamp_checked _ d1) as [t1|e]; [|discriminate].
  destruct (rasterio_open filename w) as [f|e]; [|discriminate].
  destruct (Rasterio.bounds f) as [[[x0 y0] x1] y1].
  destruct (RTree.valid _); [|discriminate].
  intro H. injection H as <-. cbn [RTree.id RTree.object].
  repeat split.
Qed.

(** X3. Indexing one discovered file is all or nothing: either the index
    gains exactly one entry, with identifier 0 and the file as its object,
    beside the entries it had, in whatever order the tree keeps them, and
    nothing else changes; or an exception is raised and the state is left
    as it was. *)
Theorem index_file_all_or_nothing (filename : string) (s : State) :
  match index_file filename s with
  | (Ok _, s') =>
      exists it,
        RTree.id it = 0 /\ RTree.object it = filename
        /\ Permutation (index (self s')) (it :: index (self s))
        /\ root (self s') = root (self s)
        /\ transforms (self s') = transforms (self s)
        /\ checksum (self s') = checksum (self s)
        /\ world s' = world s
  | (Raise _, s') => s' = s
  end.
Proof.
  rewrite index_file_unfold.
  destruct (entry_of (world s) filename) as [it|e] eqn:He; [|reflexivity].
  apply entry_of_shape in He as (Hid & Hobj & _).
  exists it. cbn [self world index root transforms checksum].
  repeat split; try assumption.
  rewrite arrange_perm. apply Permutation_sym, Permutation_cons_append.
Qed.

(** X4. A file whose leading token reads as a year below 1 or above 9999,
    within the range of a C [int], is refused: indexing it raises
    [ValueError] and changes nothing. *)
Theorem index_file_year_out_of_range (filename : string) (y : Z) (s : State) :
  Py.int (leading_token filename) = Ok y ->
  - 2 ^ 31 <= y < 2 ^ 31 ->
  y < 1 \/ 9999 < y ->
  index_file filename s = (Raise ValueError, s).
Proof.
  intros Hy Hint Hrange. rewrite index_file_unfold. unfold entry_of.
  rewrite Hy.
  assert (Hfits : Datetime.fits_int y = true).
  { unfold Datetime.fits_int. apply andb_true_iff.
    split; [apply Z.leb_le|apply Z.ltb_lt]; lia. }
  assert (Hbad : (Datetime.MINYEAR <=? y) && (y <=? Datetime.MAXYEAR) = false).
  { unfold Datetime.MINYEAR, Datetime.MAXYEAR. apply andb_false_iff.
    destruct Hrange; [left; apply Z.leb_gt|right; apply Z.leb_gt]; lia. }
  unfold Datetime.make. rewrite Hfits, Hbad. reflexivity.
Qed.

Lemma index_file_year_out_of_range_witness :
  index_file "data/cdl/0000_30m_cdls.img"
    (mkState (Samples.ds2015 None) Samples.world_2015)
  = (Raise ValueError, mkState (Samples.ds2015 None) Samples.world_2015).
Proof.
  apply (index_file_year_out_of_range _ 0); [reflexivity|lia|lia].
Defined.

Lemma days_before_year_lower (y : Z) :
  1 <= y -> 365 * (y - 1) <= Datetime.days_before_year y.
Proof.
  unfold Datetime.days_before_year. intro Hy.
  Z.to_euclidean_division_equations. lia.
Qed.

Lemma days_before_year_upper (y : Z) :
  1 <= y -> 4 * Datetime.days_before_year y <= 1461 * (y - 1).
Proof.
  unfold Datetime.days_before_year. intro Hy.
  Z.to_euclidean_division_equations. lia.
Qed.

(** From year 2 to year 9998 the readings that [timestamp] takes stay
    within the years of a [datetime], for a clock within a day of UTC. *)
Lemma timestamp_checked_ok (off : Z -> Z) (y : Z) :
  (forall t, -86400 < off t < 86400) ->
  2 <= y <= 9998 ->
  Datetime.timestamp_checked off (Datetime.mk_datetime y 1 1 0 0 0)
  = Ok (Datetime.timestamp off (Datetime.mk_datetime y 1 1 0 0 0))
  /\ Datetime.timestamp_checked off (Datetime.mk_datetime y 12 31 23 59 59)
     = Ok (Datetime.timestamp off (Datetime.mk_datetime y 12 31 23 59 59)).
Proof.
  intros Hoff Hy.
  pose proof (days_before_year_lower y ltac:(lia)) as Hlo.
  pose proof (days_before_year_upper y ltac:(lia)) as Hhi.
  pose proof (wall_year_span y) as Hspan.
  assert (Hdays : 365 <= days_in_year y <= 366)
    by (unfold days_in_year; destruct (Datetime.is_leap y); lia).
  assert (Hfirst :
    Datetime.wall_seconds (Datetime.mk_datetime y 1 1 0 0 0)
    = (Datetime.days_before_year y + 1 - 719163) * 86400).
  { unfold Datetime.wall_seconds, Datetime.ymd2ord,
      Datetime.days_before_month.
    cbn [Datetime.year Datetime.month Datetime.day Datetime.hour
         Datetime.minute Datetime.second].
    change (nth (Z.to_nat 1) Datetime.DAYS_BEFORE_MONTH 0) with 0.
    change (2 <? 1) with false. cbn [andb]. lia. }
  assert (Hmin : Datetime.MIN_SECONDS = -62135596800) by reflexivity.
  assert (Hmax : Datetime.MAX_SECONDS = 253402300799) by reflexivity.
  assert (Hrange : forall v,
    Datetime.wall_seconds (Datetime.mk_datetime y 1 1 0 0 0) - 4 * 86400 <= v
    <= Datetime.wall_seconds (Datetime.mk_datetime y 12 31 23 59 59)
       + 4 * 86400 ->
    Datetime.local_in_range off v = true).
  { intros v Hv. pose proof (Hoff v). unfold Datetime.local_in_range.
    rewrite Hmin, Hmax. apply andb_true_iff.
    split; apply Z.leb_le; lia. }
  unfold Datetime.timestamp_checked, Datetime.timestamp.
  pose proof (Hoff (Datetime.wall_seconds (Datetime.mk_datetime y 1 1 0 0 0))).
  pose proof (Hoff (Datetime.wall_seconds
                      (Datetime.mk_datetime y 12 31 23 59 59))).
  split; rewrite !Hrange by lia; reflexivity.
Qed.

Lemma make_first_ok (y : Z) :
  1 <= y <= 9999 ->
  Datetime.make y 1 1 0 0 0 = Ok (Datetime.mk_datetime y 1 1 0 0 0).
Proof.
  intro Hy.
  unfold Datetime.make, Datetime.fits_int, Datetime.MINYEAR, Datetime.MAXYEAR.
  replace (- 2 ^ 31 <=? y) with true by (symmetry; apply Z.leb_le; lia).
  replace (y <? 2 ^ 31) with true by (symmetry; apply Z.ltb_lt; lia).
  replace (1 <=? y) with true by (symmetry; apply Z.leb_le; lia).
  replace (y <=? 9999) with true by (symmetry; apply Z.leb_le; lia).
  reflexivity.
Qed.

Lemma make_last_ok (y : Z) :
  1 <= y <= 9999 ->
  Datetime.make y 12 31 23 59 59 = Ok (Datetime.mk_datetime y 12 31 23 59 59).
Proof.
  intro Hy.
  unfold Datetime.make, Datetime.fits_int, Datetime.MINYEAR, Datetime.MAXYEAR.
  replace (- 2 ^ 31 <=? y) with true by (symmetry; apply Z.leb_le; lia).
  replace (y <? 2 ^ 31) with true by (symmetry; apply Z.ltb_lt; lia).
  replace (1 <=? y) with true by (symmetry; apply Z.leb_le; lia).
  replace (y <=? 9999) with true by (symmetry; apply Z.leb_le; lia).
  reflexivity.
Qed.

(** X16. A discovered file that is named for a year from 2 to 9998 and that
    the raster source cannot open is not skipped: with the local clock
    within a day of UTC, indexing it raises the raster source's exception
    and changes nothing. *)
Theorem index_file_unreadable (filename : string) (y : Z) (s : State)
    (e : Exn) :
  Py.int (leading_token filename) = Ok y ->
  2 <= y <= 9998 ->
  offset_bounded (world s) ->
  rasterio_open filename (world s) = Raise e ->
  index_file filename s = (Raise e, s).
Proof.
  intros Hy Hrange Hoff Hopen. rewrite index_file_unfold. unfold entry_of.
  rewrite Hy, (make_first_ok y), (make_last_ok y) by lia.
  destruct (timestamp_checked_ok (utcoffset (world s)) y Hoff Hrange)
    as [-> ->].
  rewrite Hopen. reflexivity.
Qed.

Lemma index_file_unreadable_witness :
  index_file "data/cdl/2014_30m_cdls.img"
    (mkState (mkObj "data" None false []) Samples.world_unreadable_first)
  = (Raise RasterioIOError,
     mkState (mkObj "data" None false []) Samples.world_unreadable_first).
Proof.
  apply (index_file_unreadable _ 2014); [reflexivity|lia| |reflexivity].
  intro t. unfold Samples.world_unreadable_first, Samples.utc.
  cbn [world utcoffset]. lia.
Defined.

(** *** The integrity check *)

Lemma check_integrity_ok (cs : bool) (files : FS) (root_ : string)
    (y : Z) (h : string) :
  Torchvision.check_integrity files (archive_path root_ y)
    (if cs then Some h else None) = true
  <-> archive_ok cs files root_ y h.
Proof.
  unfold Torchvision.check_integrity, archive_ok.
  destruct (fs_lookup _ files) as [f|].
  - destruct cs.
    + rewrite String.eqb_eq. split.
      * intro H. exists f. split; [reflexivity|intros _; exact H].
      * intros (f' & Hf & Hm). injection Hf as <-. now apply Hm.
    + split; [|reflexivity]. intros _. exists f. split; [reflexivity|].
      discriminate.
  - split; [discriminate|]. intros (f & Hf & _). discriminate.
Qed.

Lemma check_loop_true (o : Obj) (files : FS) (table : list (Z * string)) :
  check_loop o files table = true
  <-> forall y h, In (y, h) table ->
                  archive_ok (checksum o) files (root o) y h.
Proof.
  induction table as [|[y h] table IH]; cbn [check_loop].
  - split; [intros _ y h []|reflexivity].
  - destruct (Torchvision.check_integrity _ _ _) eqn:Hc; cbn [negb].
    + rewrite IH. apply check_integrity_ok in Hc. split.
      * intros H y' h' [Heq|Hin]; [injection Heq as <- <-; exact Hc|].
        now apply H.
      * intros H y' h' Hin. apply H. now right.
    + split; [discriminate|]. intro H.
      specialize (H y h (or_introl eq_refl)).
      apply check_integrity_ok in H. congruence.
Qed.

(** X5. [_check_integrity] never raises and changes nothing, and it
    returns [True] exactly when every archive of the table is there and,
    under checksum verification, has the table's digest. *)
Theorem check_integrity_spec (s : State) :
  exists b : bool,
    _check_integrity s = (Ok b, s)
    /\ (b = true <->
        forall y h, In (y, h) md5s ->
          archive_ok (checksum (self s)) (fs (world s)) (root (self s)) y h).
Proof.
  eexists. split; [apply check_integrity_unfold|]. apply check_loop_true.
Qed.

(** X6. Checksum verification only makes the check stricter: files that
    pass it with verification on pass it with verification off. *)
Theorem check_integrity_checksum_stricter (root_ : string)
    (ts ts' : option (Sample -> Sample)) (idx idx' : RTree.Index) (w : World) :
  fst (_check_integrity (mkState (mkObj root_ ts true idx) w)) = Ok true ->
  fst (_check_integrity (mkState (mkObj root_ ts' false idx') w)) = Ok true.
Proof.
  rewrite !check_integrity_unfold. cbn [fst self world].
  intro H.
  assert (H' : check_loop (mkObj root_ ts true idx) (fs w) md5s = true)
    by congruence.
  clear H. f_equal.
  apply (proj2 (check_loop_true _ _ _)).
  pose proof (proj1 (check_loop_true _ _ _) H') as H.
  cbn [root checksum] in *.
  intros y h Hin. destruct (H y h Hin) as (f & Hf & _).
  exists f. split; [exact Hf|discriminate].
Qed.

Lemma check_integrity_checksum_stricter_witness :
  fst (_check_integrity
         (mkState (mkObj "data" None false []) Samples.world_2015)) = Ok true.
Proof.
  apply (check_integrity_checksum_stricter "data" None None [] []).
  reflexivity.
Defined.

(** *** Construction as a whole *)

(** X7. Construction returns an instance only over verified files: in the
    world it leaves, every archive of the table is there and, under
    checksum verification, has the table's digest. *)
Theorem new_ok_archives (root_ : string) (ts : option (Sample -> Sample))
    (dl cs : bool) (w w' : World) (ds : Obj) :
  CDL.new root_ ts dl cs w = (Ok ds, w') ->
  forall y h, In (y, h) md5s -> archive_ok cs (fs w') root_ y h.
Proof.
  intro Hnew. apply new_ok_index in Hnew as (Hr & _ & Hc & Hchk & _).
  pose proof (proj1 (check_loop_true _ _ _) Hchk) as H.
  rewrite Hr, Hc in H. exact H.
Qed.

Lemma new_ok_archives_witness :
  archive_ok false (fs Samples.world_2015) "data" 2008
    "e6aa3967e379b98fd30c26abe9696053".
Proof.
  apply (new_ok_archives "data" None false false Samples.world_2015
           Samples.world_2015 (Samples.ds2015 None)).
  - reflexivity.
  - do 12 right. left. reflexivity.
Defined.

Lemma entries_list_files (w : World) (files : list string)
    (items : list RTree.Item) :
  Forall2 (fun f it => entry_of w f = Ok it) files items ->
  map RTree.object items = files
  /\ Forall (fun it => RTree.id it = 0
                       /\ is_ok (rasterio_open (RTree.object it) w) = true)
       items.
Proof.
  induction 1 as [|f it files items He _ [IHm IHf]];
    [split; constructor|].
  apply entry_of_shape in He as (Hid & Hobj & Hopen).
  split.
  - cbn [map]. now rewrite Hobj, IHm.
  - constructor; [|exact IHf]. rewrite Hobj. split; assumption.
Qed.

(** X8. The index of a new instance holds the discovered files: one entry
    per file, with the file as its object and identifier 0, in the order
    the tree keeps them; the attributes are the constructor's arguments. *)
Theorem new_index_lists_files (root_ : string)
    (ts : option (Sample -> Sample)) (dl cs : bool) (w w' : World)
    (ds : Obj) :
  CDL.new root_ ts dl cs w = (Ok ds, w') ->
  Permutation (map RTree.object (index ds))
    (Glob.iglob (fileglob root_) (fs w'))
  /\ Forall (fun it => RTree.id it = 0) (index ds)
  /\ root ds = root_ /\ transforms ds = ts /\ checksum ds = cs.
Proof.
  intro Hnew.
  apply new_ok_index in Hnew as (Hr & Ht & Hc & _ & items & Hperm & Hall).
  apply entries_list_files in Hall as [Hm Hf].
  repeat split; try assumption.
  - rewrite <- Hm. apply Permutation_map, Hperm.
  - rewrite Forall_forall in Hf |- *. intros it Hit.
    apply (Permutation_in _ Hperm) in Hit. now apply Hf.
Qed.

Lemma new_index_lists_files_witness :
  Permutation (map RTree.object (index Samples.ds_two_years))
    (Glob.iglob (fileglob "data") (fs Samples.world_two_years)).
Proof.
  apply (new_index_lists_files "data" None false false
           Samples.world_two_years Samples.world_two_years
           Samples.ds_two_years).
  reflexivity.
Defined.

Lemma indexable_entry (w : World) (filename : string) :
  offset_bounded w -> indexable w filename ->
  is_ok (entry_of w filename) = true.
Proof.
  intros Hoff (y & f & x0 & y0 & x1 & y1 & Hy & Htok & Hopen & Hb & Hx & Hyy).
  unfold entry_of.
  rewrite Htok, (TokenFacts.int_year_token y) by lia.
  rewrite (make_first_ok y), (make_last_ok y) by lia.
  destruct (timestamp_checked_ok (utcoffset w) y Hoff Hy) as [-> ->].
  rewrite Hopen, Hb.
  pose proof (wall_year_span y) as Hspan.
  pose proof (Hoff (Datetime.wall_seconds (Datetime.mk_datetime y 1 1 0 0 0))).
  pose proof (Hoff (Datetime.wall_seconds
                      (Datetime.mk_datetime y 12 31 23 59 59))).
  assert (Ht : Datetime.timestamp (utcoffset w)
                 (Datetime.mk_datetime y 1 1 0 0 0)
               <= Datetime.timestamp (utcoffset w)
                    (Datetime.mk_datetime y 12 31 23 59 59)).
  { unfold Datetime.timestamp. unfold days_in_year in Hspan.
    destruct (Datetime.is_leap y); lia. }
  unfold RTree.valid.
  replace (_ <=? _) with true by (symmetry; apply Z.leb_le; exact Ht).
  destruct (Z.ltb_spec x0 x1); [reflexivity|].
  replace (x0 =? x1) with true by (symmetry; apply Z.eqb_eq; lia).
  destruct (Z.ltb_spec y0 y1); [reflexivity|].
  replace (y0 =? y1) with true by (symmetry; apply Z.eqb_eq; lia).
  reflexivity.
Qed.

Lemma scan_succeeds (files : list string) :
  forall s : State,
    (forall f, In f files -> is_ok (entry_of (world s) f) = true) ->
    is_ok (fst (for_each files index_file s)) = true.
Proof.
  induction files as [|f files IH]; intros s Hall; [reflexivity|].
  cbn [for_each]. unfold bind. rewrite index_file_unfold.
  pose proof (Hall f (or_introl eq_refl)) as Hf.
  destruct (entry_of (world s) f) as [it|e]; [|discriminate].
  apply IH. cbn [world]. intros g Hg. apply Hall. now right.
Qed.

(** X9. Construction succeeds on a well-kept root: when every archive passes
    the integrity check, the local clock is within a day of UTC and every
    discovered file is named for a year from 2 to 9998 and opens as a
    raster with ordered bounds, an instance is returned, with or without
    the download flag, and the files and the record of fetches are as
    before. *)
Theorem new_succeeds (root_ : string) (ts : option (Sample -> Sample))
    (dl cs : bool) (w : World) :
  (forall y h, In (y, h) md5s -> archive_ok cs (fs w) root_ y h) ->
  offset_bounded w ->
  (forall f, In f (Glob.iglob (fileglob root_) (fs w)) -> indexable w f) ->
  exists ds,
    fst (CDL.new root_ ts dl cs w) = Ok ds
    /\ fs (snd (CDL.new root_ ts dl cs w)) = fs w
    /\ fetch_log (snd (CDL.new root_ ts dl cs w)) = fetch_log w.
Proof.
  intros Harch Hoff Hfiles.
  assert (Hchk : check_loop (mkObj root_ ts cs []) (fs w) md5s = true)
    by (apply check_loop_true; exact Harch).
  assert (Hpre : exists w1,
    init_prelude root_ ts dl cs (mkState fresh w)
    = (Ok tt, mkState (mkObj root_ ts cs []) w1)
    /\ fs w1 = fs w /\ fetch_log w1 = fetch_log w
    /\ utcoffset w1 = utcoffset w).
  { rewrite prelude_unfold. destruct dl.
    - rewrite download_unfold. cbn [self world]. rewrite Hchk.
      cbn [self world print snd fs]. rewrite Hchk.
      eexists. split; [reflexivity|]. repeat split.
    - cbn [ret self world]. rewrite Hchk.
      exists w. repeat split. }
  destruct Hpre as (w1 & Hpre & Hfs & Hlog & Hoff1).
  rewrite new_unfold, Hpre. cbn [world].
  pose proof (scan_succeeds (Glob.iglob (fileglob root_) (fs w1))
                (mkState (mkObj root_ ts cs []) w1)) as Hscan.
  destruct (for_each _ index_file _) as [r s2] eqn:Hrun.
  pose proof (scan_frame _ _ _ _ Hrun) as (Hw & _).
  cbn [fst snd world] in *.
  destruct r as [[]|e].
  - exists (self s2). cbn [fst snd]. rewrite Hw.
    repeat split; assumption.
  - discriminate Hscan. intros f Hf.
    assert (Hidx : indexable w f) by (apply Hfiles; now rewrite <- Hfs).
    assert (Hoffb : offset_bounded w1)
      by (intro t; rewrite Hoff1; apply Hoff).
    apply indexable_entry; [exact Hoffb|].
    destruct Hidx as (y & f0 & x0 & y0 & x1 & y1 & Hy & Htok & Hopen & Hrest).
    exists y, f0, x0, y0, x1, y1.
    split; [exact Hy|]. split; [exact Htok|]. split; [|exact Hrest].
    unfold rasterio_open in *. now rewrite Hfs.
Qed.

Lemma new_succeeds_witness :
  exists ds,
    fst (CDL.new "data" None true false Samples.world_2015) = Ok ds
    /\ fs (snd (CDL.new "data" None true false Samples.world_2015))
       = fs Samples.world_2015
    /\ fetch_log (snd (CDL.new "data" None true false Samples.world_2015))
       = fetch_log Samples.world_2015.
Proof.
  apply new_succeeds.
  - intros y h Hin.
    repeat (destruct Hin as [Heq|Hin];
            [injection Heq as <- <-; eexists; split;
               [reflexivity|discriminate]|]).
    contradiction.
  - intro t. unfold Samples.world_2015, Samples.utc. cbn [utcoffset]. lia.
  - intros f [<-|[]].
    exists 2015, Samples.grid100, 0, 0, 100, 100.
    repeat split; try reflexivity; lia.
Defined.

Lemma entry_of_ext (w1 w2 : World) (filename : string) :
  fs w1 = fs w2 -> utcoffset w1 = utcoffset w2 ->
  entry_of w1 filename = entry_of w2 filename.
Proof.
  intros Hfs Hoff. unfold entry_of, rasterio_open.
  now rewrite Hfs, Hoff.
Qed.

(** The scan sees of the world the files, the clock and the tree only. *)
Lemma scan_ext (files : list string) :
  forall (o : Obj) (w1 w2 : World),
    fs w1 = fs w2 -> utcoffset w1 = utcoffset w2 ->
    rtree_layout w1 = rtree_layout w2 ->
    fst (for_each files index_file (mkState o w1))
    = fst (for_each files index_file (mkState o w2))
    /\ self (snd (for_each files index_file (mkState o w1)))
       = self (snd (for_each files index_file (mkState o w2))).
Proof.
  induction files as [|f files IH]; intros o w1 w2 Hfs Hoff Hlay;
    [split; reflexivity|].
  cbn [for_each]. unfold bind. rewrite !index_file_unfold.
  cbn [self world]. rewrite (entry_of_ext w1 w2 f Hfs Hoff), Hlay.
  destruct (entry_of w2 f) as [it|e]; [|split; reflexivity].
  now apply IH.
Qed.

(** X10. On files that pass the integrity check the download flag changes
    one thing only: construction gives the same result with it and without
    it, and with it the world is the one construction leaves without it
    plus the line "Files already downloaded and verified" on standard
    output. *)
Theorem new_download_flag_irrelevant (root_ : string)
    (ts : option (Sample -> Sample)) (cs : bool) (w : World) :
  fst (_check_integrity (mkState (mkObj root_ ts cs []) w)) = Ok true ->
  fst (CDL.new root_ ts true cs w) = fst (CDL.new root_ ts false cs w)
  /\ snd (CDL.new root_ ts true cs w)
     = snd (print verified_message (snd (CDL.new root_ ts false cs w))).
Proof.
  rewrite check_integrity_unfold. cbn [fst self world]. intro H.
  assert (Hchk : check_loop (mkObj root_ ts cs []) (fs w) md5s = true)
    by congruence.
  split.
  - rewrite !new_unfold, !prelude_unfold, download_unfold.
    cbn [ret self world]. rewrite Hchk.
    cbn [self world print snd fs]. rewrite Hchk.
    cbn [world fs].
    destruct (scan_ext (Glob.iglob (fileglob root_) (fs w))
                (mkObj root_ ts cs [])
                (snd (print verified_message w)) w
                eq_refl eq_refl eq_refl) as [Hr Hs].
    cbn [print snd] in Hr, Hs.
    destruct (for_each _ index_file (mkState _ (mkWorld _ _ _ _ _ _)))
      as [r1 s1].
    destruct (for_each _ index_file (mkState _ w)) as [r2 s2].
    cbn [fst snd] in Hr, Hs. subst r2.
    destruct r1 as [[]|e]; cbn [fst]; congruence.
  - rewrite !new_world, download_unfold. cbn [ret self world snd].
    rewrite Hchk. reflexivity.
Qed.

Lemma new_download_flag_irrelevant_witness :
  fst (CDL.new "data" None true false Samples.world_2015)
  = fst (CDL.new "data" None false false Samples.world_2015)
  /\ snd (CDL.new "data" None true false Samples.world_2015)
     = snd (print verified_message
              (snd (CDL.new "data" None false false Samples.world_2015))).
Proof.
  apply new_download_flag_irrelevant. reflexivity.
Defined.

(** X11. Without the download flag construction only reads: whether it
    returns an instance or raises, the files and the fetch log are as
    before. *)
Theorem new_without_download_reads_only (root_ : string)
    (ts : option (Sample -> Sample)) (cs : bool) (w : World) :
  snd (CDL.new root_ ts false cs w) = w.
Proof. rewrite new_world. reflexivity. Qed.

(** X12. A failing fetch ends construction: when the integrity check fails
    and the fetch of the first table entry raises, construction raises the
    same exception, that fetch is the only one made and the integrity error
    is not reached. *)
Theorem new_fetch_failure_propagates (root_ : string)
    (ts : option (Sample -> Sample)) (cs : bool) (w : World) (e : Exn) :
  let o := mkObj root_ ts cs [] in
  let first := fetch_call o (2020, "97b3b5fd62177c9ed857010bca146f36") in
  fst (_check_integrity (mkState o w)) = Ok false ->
  fst (fetcher w (fc_url first) (fc_dest first) (fc_md5 first) (fs w))
  = Raise e ->
  fst (CDL.new root_ ts true cs w) = Raise e
  /\ fetch_log (snd (CDL.new root_ ts true cs w))
     = (fetch_log w ++ [first])%list.
Proof.
  cbv zeta. rewrite check_integrity_unfold. cbn [fst self world].
  intros H Hfetch.
  assert (Hchk : check_loop (mkObj root_ ts cs []) (fs w) md5s = false)
    by congruence.
  clear H.
  assert (Hloop :
    for_each md5s download_entry (mkState (mkObj root_ ts cs []) w)
    = download_entry (2020, "97b3b5fd62177c9ed857010bca146f36")
        (mkState (mkObj root_ ts cs []) w)).
  { unfold md5s. cbn [for_each]. unfold bind at 1.
    rewrite download_entry_unfold. cbn [self world]. rewrite Hfetch.
    reflexivity. }
  rewrite new_unfold, prelude_unfold, download_unfold.
  cbn [self world]. rewrite Hchk, Hloop, download_entry_unfold.
  cbn [self world]. rewrite Hfetch.
  cbn [fst snd world fetch_log]. split; reflexivity.
Qed.

Lemma new_fetch_failure_propagates_witness :
  fst (CDL.new "data" None true false Samples.world_empty)
  = Raise (FetchError "offline").
Proof.
  apply (new_fetch_failure_propagates "data" None false Samples.world_empty);
    reflexivity.
Defined.


(** X17. The check after the download decides: when [_download] returns
    and the integrity check still fails on the files it left, construction
    with the download flag raises the integrity error all the same. *)
Theorem new_download_then_integrity_error (root_ : string)
    (ts : option (Sample -> Sample)) (cs : bool) (w : World) (s1 : State) :
  _download (mkState (mkObj root_ ts cs []) w) = (Ok tt, s1) ->
  fst (_check_integrity s1) = Ok false ->
  CDL.new root_ ts true cs w
  = (Raise (RuntimeError integrity_message), world s1).
Proof.
  rewrite check_integrity_unfold. cbn [fst]. intros Hd H.
  assert (Hchk : check_loop (self s1) (fs (world s1)) md5s = false)
    by congruence.
  rewrite new_unfold, prelude_unfold, Hd, Hchk. reflexivity.
Qed.

Lemma new_download_then_integrity_error_witness :
  CDL.new "data" None true false Samples.world_idle_fetcher
  = (Raise (RuntimeError integrity_message),
     {| fs := []; utcoffset := Samples.utc; fetcher := Samples.idle;
        fetch_log := map (fetch_call (mkObj "data" None false [])) md5s;
        rtree_layout := Samples.in_order; stdout := [] |}).
Proof.
  apply (new_download_then_integrity_error "data" None false
           Samples.world_idle_fetcher
           (mkState (mkObj "data" None false [])
              {| fs := []; utcoffset := Samples.utc;
                 fetcher := Samples.idle;
                 fetch_log := map (fetch_call (mkObj "data" None false []))
                                md5s;
                 rtree_layout := Samples.in_order; stdout := [] |})).
  - vm_compute. reflexivity.
  - vm_compute. reflexivity.
Defined.

(** *** Queries *)

Lemma filter_head {A} (p : A -> bool) (l : list A) (x : A) (rest : list A) :
  filter p l = x :: rest ->
  exists before after,
    l = (before ++ x :: after)%list
    /\ (forall b, In b before -> p b = false)
    /\ p x = true.
Proof.
  induction l as [|a l IH]; cbn [filter]; [discriminate|].
  destruct (p a) eqn:Hp.
  - intro H. injection H as <- _. exists [], l.
    split; [reflexivity|]. split; [intros b []|exact Hp].
  - intro H. destruct (IH H) as (before & after & -> & Hb & Hx).
    exists (a :: before), after. split; [reflexivity|].
    split; [|exact Hx]. intros b [<-|Hin]; [exact Hp|now apply Hb].
Qed.

Lemma filter_some {A} (p : A -> bool) (l : list A) (x : A) :
  In x l -> p x = true -> exists y rest, filter p l = y :: rest.
Proof.
  intros Hin Hp.
  destruct (filter p l) as [|y rest] eqn:Hf; [|now exists y, rest].
  assert (Hx : In x (filter p l)) by (apply filter_In; now split).
  rewrite Hf in Hx. contradiction.
Qed.

Lemma query_ok_inv (ds : Obj) (w : World) (q : BoundingBox)
    (sample : Sample) :
  fst (CDL.query ds q w) = Ok sample ->
  exists it f,
    first_hit ds q = Ok it
    /\ rasterio_open (RTree.object it) w = Ok f
    /\ sample = [("masks",
                  tensor (astype_int32 (Rasterio.read1 f (query_window q))))].
Proof.
  unfold CDL.query. rewrite getitem_unfold. cbn [fst self world].
  unfold query_outcome, Rasterio.Window_new, query_window. intro Hs.
  destruct ((maxx q - minx q <? 0) || (maxy q - miny q <? 0));
    [discriminate|].
  destruct (first_hit ds q) as [it|e]; [|discriminate].
  destruct (rasterio_open (RTree.object it) w) as [f|e] eqn:Hf;
    [|discriminate].
  exists it, f. split; [reflexivity|]. split; [exact Hf|].
  now injection Hs as <-.
Qed.

(** X13. First hit wins: a query that returns a sample read it from the
    file of an index entry whose volume intersects the query volume, and no
    entry before that one in the index intersects it. *)
Theorem query_reads_first_hit (ds : Obj) (w : World) (q : BoundingBox)
    (sample : Sample) :
  fst (CDL.query ds q w) = Ok sample ->
  exists before it after f,
    index ds = (before ++ it :: after)%list
    /\ (forall b, In b before ->
          RTree.intersects (RTree.bbox b) (RTree.of_bbox q) = false)
    /\ RTree.intersects (RTree.bbox it) (RTree.of_bbox q) = true
    /\ rasterio_open (RTree.object it) w = Ok f
    /\ sample = [("masks",
                  tensor (astype_int32 (Rasterio.read1 f (query_window q))))].
Proof.
  intro Hq.
  destruct (query_ok_inv ds w q sample Hq) as (it & f & Hhit & Hf & Hs).
  unfold first_hit, RTree.intersection in Hhit.
  destruct (RTree.valid (RTree.of_bbox q)); [|discriminate].
  destruct (filter _ (index ds)) as [|x rest] eqn:Hfil; [discriminate|].
  injection Hhit as ->.
  destruct (filter_head _ _ _ _ Hfil) as (before & after & Hidx & Hb & Hx).
  exists before, it, after, f. repeat split; assumption.
Qed.

Lemma query_reads_first_hit_witness :
  exists before it after f,
    index (Samples.ds2015 None) = (before ++ it :: after)%list
    /\ (forall b, In b before ->
          RTree.intersects (RTree.bbox b) (RTree.of_bbox Samples.query_10_60)
          = false)
    /\ RTree.intersects (RTree.bbox it) (RTree.of_bbox Samples.query_10_60)
       = true
    /\ rasterio_open (RTree.object it) Samples.world_2015 = Ok f
    /\ [("masks",
         tensor (astype_int32
                   (Rasterio.read1 Samples.grid100
                      (query_window Samples.query_10_60))))]
       = [("masks",
           tensor (astype_int32
                     (Rasterio.read1 f (query_window Samples.query_10_60))))].
Proof.
  apply (query_reads_first_hit (Samples.ds2015 None) Samples.world_2015
           Samples.query_10_60).
  reflexivity.
Defined.

(** X14. A query on a new instance, in the world its construction left,
    finds its file: when the query volume is well formed and intersects some
    index entry, the query returns a sample and does not raise. *)
Theorem query_after_new_succeeds (root_ : string)
    (ts : option (Sample -> Sample)) (dl cs : bool) (w w' : World)
    (ds : Obj) (q : BoundingBox) (hit : RTree.Item) :
  CDL.new root_ ts dl cs w = (Ok ds, w') ->
  wf_bbox q = true ->
  In hit (index ds) ->
  RTree.intersects (RTree.bbox hit) (RTree.of_bbox q) = true ->
  exists sample, fst (CDL.query ds q w') = Ok sample.
Proof.
  intros Hnew Hwf Hin Hhit.
  apply new_ok_index in Hnew as (_ & _ & _ & _ & items & Hperm & Hall).
  apply entries_list_files in Hall as [_ Hopen].
  rewrite Forall_forall in Hopen.
  assert (Hopen' : forall x, In x (index ds) ->
            is_ok (rasterio_open (RTree.object x) w') = true).
  { intros x Hx. apply (Permutation_in _ Hperm) in Hx. now apply Hopen. }
  destruct (filter_some
              (fun x => RTree.intersects (RTree.bbox x) (RTree.of_bbox q))
              _ _ Hin Hhit) as (it & rest & Hfil).
  assert (Hit : In it (index ds)).
  { assert (H : In it (filter
                         (fun x => RTree.intersects (RTree.bbox x)
                                     (RTree.of_bbox q)) (index ds)))
      by (rewrite Hfil; now left).
    apply filter_In in H. tauto. }
  pose proof (Hopen' it Hit) as Hf.
  unfold CDL.query. rewrite getitem_unfold. cbn [fst self world].
  unfold query_outcome, first_hit, RTree.intersection.
  rewrite (wf_bbox_window q Hwf), (wf_bbox_valid q Hwf), Hfil.
  cbn [next].
  destruct (rasterio_open (RTree.object it) w') as [f|e]; [|discriminate].
  eexists. reflexivity.
Qed.

Lemma query_after_new_succeeds_witness :
  exists sample,
    fst (CDL.query (Samples.ds2015 None) Samples.query_10_60
           Samples.world_2015) = Ok sample.
Proof.
  apply (query_after_new_succeeds "data" None false false Samples.world_2015
           Samples.world_2015 (Samples.ds2015 None) Samples.query_10_60
           (RTree.mkItem 0 (0, 100, 0, 100, 1420070400, 1451606399)
              Samples.img2015)).
  - reflexivity.
  - reflexivity.
  - left. reflexivity.
  - reflexivity.
Defined.

Lemma wrap_int32_range (v : Z) : in_int32 (wrap_int32 v).
Proof.
  unfold in_int32, wrap_int32.
  pose proof (Z.mod_pos_bound (v + 2 ^ 31) (2 ^ 32) ltac:(lia)).
  lia.
Qed.

Lemma wrap_int32_id (v : Z) : in_int32 v -> wrap_int32 v = v.
Proof.
  unfold in_int32, wrap_int32. intro H.
  rewrite Z.mod_small by lia. lia.
Qed.

(** X15. The sample of a query has the one field [masks], of element type
    int32, and every element lies in the signed 32-bit range; when the
    band values of the file read are in that range themselves, the
    elements are the band values of the window, unchanged. *)
Theorem query_masks_int32 (ds : Obj) (w : World) (q : BoundingBox)
    (sample : Sample) :
  fst (CDL.query ds q w) = Ok sample ->
  exists (masks : Tensor) (it : RTree.Item) (f : Rasterio.Raster),
    sample = [("masks", masks)]
    /\ tensor_dtype masks = int32
    /\ Forall (Forall in_int32) (tensor_data masks)
    /\ first_hit ds q = Ok it
    /\ rasterio_open (RTree.object it) w = Ok f
    /\ tensor_shape masks = shape (Rasterio.read1 f (query_window q))
    /\ ((forall i j, in_int32 (Rasterio.band1 f i j)) ->
        tensor_data masks = data (Rasterio.read1 f (query_window q))).
Proof.
  intro Hq.
  destruct (query_ok_inv ds w q sample Hq) as (it & f & Hhit & Hf & ->).
  eexists _, it, f. split; [reflexivity|].
  split; [reflexivity|]. split; [|split; [exact Hhit|split; [exact Hf|]]].
  - cbn [tensor_data astype_int32 data].
    apply Forall_forall. intros row Hrow.
    apply in_map_iff in Hrow as (row0 & <- & _).
    apply Forall_forall. intros v Hv.
    apply in_map_iff in Hv as (v0 & <- & _). apply wrap_int32_range.
  - split; [reflexivity|]. intro Hband.
    cbn [tensor_data astype_int32 data Rasterio.read1].
    rewrite map_map. apply map_ext. intro i.
    rewrite map_map. apply map_ext. intro j.
    apply wrap_int32_id, Hband.
Qed.

Lemma query_masks_int32_witness :
  exists (masks : Tensor) (it : RTree.Item) (f : Rasterio.Raster),
    [("masks",
      tensor (astype_int32
                (Rasterio.read1 Samples.grid100
                   (query_window Samples.query_10_60))))]
    = [("masks", masks)]
    /\ tensor_dtype masks = int32
    /\ Forall (Forall in_int32) (tensor_data masks)
    /\ first_hit (Samples.ds2015 None) Samples.query_10_60 = Ok it
    /\ rasterio_open (RTree.object it) Samples.world_2015 = Ok f
    /\ tensor_shape masks
       = shape (Rasterio.read1 f (query_window Samples.query_10_60))
    /\ ((forall i j, in_int32 (Rasterio.band1 f i j)) ->
        tensor_data masks
        = data (Rasterio.read1 f (query_window Samples.query_10_60))).
Proof.
  apply (query_masks_int32 (Samples.ds2015 None) Samples.world_2015
           Samples.query_10_60).
  reflexivity.
Defined.

End MoreFacts.
